(** * lonebits/callable: the Firebase [https.onCall] adapter

    A shallow embedding of [response.go] and [callable.go] together with
    the properties of the request dispatch and of the error mapping.

    Conventions of the embedding.
    - [StatusCode] is Go's [int]; it is an integer of [Z], so that values
      outside the enumeration exist, as they do in Go.
    - [http.Header] is a finite map from header names to the list of their
      values.  Header names are the canonical spellings used in the source
      (Go canonicalises names on both sides of every access).
    - A response writer is a recorder in the style of
      [httptest.ResponseRecorder]: the live header map, the status and the
      header snapshot taken by the first [WriteHeader], and what was
      written to the body.
    - Functions of other packages ([mime.ParseMediaType], the auth client,
      the user's [Handle] method and its JSON unmarshalling) are values
      handed to the model; the package's own code is written out. *)

From Stdlib Require Import ZArith String Ascii List Bool Lia.
From stdpp Require Import base option list gmap strings.
Import ListNotations.

#[local] Set Warnings "-register-all".

Local Open Scope Z_scope.
Local Open Scope string_scope.

(** * Package [fmt], [strings]: the functions the package calls *)

Module Strings.

(** [fmt.Sprintf] on operands already rendered as text ([%s] and [%v]
    print a string as it is and an error through its [Error] method).
    The package uses the verbs [%s] and [%v] only; [%%] is the literal
    percent sign, a verb with no operand left prints Go's [MISSING]
    marker, and any other verb is copied unchanged. *)
Fixpoint Sprintf (format : string) (a : list string) : string :=
  match format with
  | EmptyString => EmptyString
  | String c rest =>
      if bool_decide (c = "%"%char) then
        match rest with
        | EmptyString => "%!(NOVERB)"
        | String v rest' =>
            if bool_decide (v = "s"%char) || bool_decide (v = "v"%char) then
              match a with
              | x :: a' => x +:+ Sprintf rest' a'
              | [] => String "%" (String "!" (String v "(MISSING)")) +:+ Sprintf rest' []
              end
            else if bool_decide (v = "%"%char) then String "%" (Sprintf rest' a)
            else String c (String v (Sprintf rest' a))
        end
      else String c (Sprintf rest a)
  end.

(** [strings.ToLower] on the ASCII letters.  The only results the
    package compares it with are the empty string, [utf-8] and [utf8];
    no character outside ASCII lower-cases to a letter of those. *)
Definition lower (c : ascii) : ascii :=
  let n := nat_of_ascii c in
  if ((65 <=? n)%nat && (n <=? 90)%nat)%bool then ascii_of_nat (n + 32) else c.

Fixpoint ToLower (s : string) : string :=
  match s with
  | EmptyString => EmptyString
  | String c s' => String (lower c) (ToLower s')
  end.

(** White space of [unicode.IsSpace] within ASCII. *)
Definition isSpace (c : ascii) : bool :=
  let n := nat_of_ascii c in
  ((9 <=? n)%nat && (n <=? 13)%nat) || (n =? 32)%nat.

(** The number of bytes of the white-space rune that a string starts
    with, 0 when it starts with none.  The runes of [unicode.IsSpace] are
    those of ASCII above and, in UTF-8, U+0085 (C2 85), U+00A0 (C2 A0),
    U+1680 (E1 9A 80), U+2000 to U+200A (E2 80 80 to E2 80 8A), U+2028,
    U+2029 and U+202F (E2 80 A8, A9, AF), U+205F (E2 81 9F) and U+3000
    (E3 80 80).  The first byte of each of these is no continuation byte,
    so such a sequence always starts at a rune boundary of the decoder. *)
Definition spaceWidth (s : string) : nat :=
  match s with
  | EmptyString => 0
  | String c0 rest =>
      if isSpace c0 then 1
      else
        let b0 := nat_of_ascii c0 in
        match rest with
        | EmptyString => 0
        | String c1 rest' =>
            let b1 := nat_of_ascii c1 in
            if ((b0 =? 194) && ((b1 =? 133) || (b1 =? 160)))%nat then 2
            else
              match rest' with
              | EmptyString => 0
              | String c2 _ =>
                  let b2 := nat_of_ascii c2 in
                  if (((b0 =? 225) && (b1 =? 154) && (b2 =? 128))
                      || ((b0 =? 226) && (b1 =? 128)
                          && (((128 <=? b2) && (b2 <=? 138))
                              || (b2 =? 168) || (b2 =? 169) || (b2 =? 175)))
                      || ((b0 =? 226) && (b1 =? 129) && (b2 =? 159))
                      || ((b0 =? 227) && (b1 =? 128) && (b2 =? 128)))%nat
                  then 3 else 0
              end
        end
  end.

(** [strings.Fields]: the maximal runs of bytes that hold no white-space
    rune, in order.  [cur] is the field being read and [skip] the number
    of bytes left of the white-space rune being passed. *)
Fixpoint fieldsFrom (s cur : string) (skip : nat) : list string :=
  match s with
  | EmptyString => if bool_decide (cur = "") then [] else [cur]
  | String c s' =>
      match skip with
      | S k => fieldsFrom s' cur k
      | O =>
          match spaceWidth s with
          | O => fieldsFrom s' (cur +:+ String c "") 0
          | S k =>
              if bool_decide (cur = "") then fieldsFrom s' "" k
              else cur :: fieldsFrom s' "" k
          end
      end
  end.

Definition Fields (s : string) : list string := fieldsFrom s "" 0.

End Strings.

(** * response.go *)

Module Response.
Import Strings.

(** [type StatusCode int] and its [iota] constants. *)
Definition StatusCode := Z.

Definition InvalidArgument    : StatusCode := 0.
Definition FailedPrecondition : StatusCode := 1.
Definition OutOfRange         : StatusCode := 2.
Definition Unauthenticated    : StatusCode := 3.
Definition PermissionDenied   : StatusCode := 4.
Definition NotFound           : StatusCode := 5.
Definition Aborted            : StatusCode := 6.
Definition AlreadyExists      : StatusCode := 7.
Definition ResourceExhausted  : StatusCode := 8.
Definition Cancelled          : StatusCode := 9.
Definition DataLoss           : StatusCode := 10.
Definition Unknown            : StatusCode := 11.
Definition Internal           : StatusCode := 12.
Definition NotImplemented     : StatusCode := 13.
Definition Unavailable        : StatusCode := 14.
Definition DeadlineExceeded   : StatusCode := 15.

(** [var statuses = map[StatusCode]struct{status string; code int}{...}] *)
Definition statuses : gmap Z (string * Z) :=
  <[InvalidArgument    := ("INVALID_ARGUMENT", 400)]> (
  <[FailedPrecondition := ("FAILED_PRECONDITION", 400)]> (
  <[OutOfRange         := ("OUT_OF_RANGE", 400)]> (
  <[Unauthenticated    := ("UNAUTHENTICATED", 401)]> (
  <[PermissionDenied   := ("PERMISSION_DENIED", 403)]> (
  <[NotFound           := ("NOT_FOUND", 404)]> (
  <[Aborted            := ("ABORTED", 409)]> (
  <[AlreadyExists      := ("ALREADY_EXISTS", 409)]> (
  <[ResourceExhausted  := ("RESOURCE_EXHAUSTED", 429)]> (
  <[Cancelled          := ("CANCELLED", 499)]> (
  <[DataLoss           := ("DATA_LOSS", 500)]> (
  <[Unknown            := ("UNKNOWN", 500)]> (
  <[Internal           := ("INTERNAL", 500)]> (
  <[NotImplemented     := ("NOT_IMPLEMENTED", 501)]> (
  <[Unavailable        := ("UNAVAILABLE", 503)]> (
  <[DeadlineExceeded   := ("DEADLINE_EXCEEDED", 504)]> ∅))))))))))))))).

(** [type callError struct { status string; code int; message string }] *)
Record callError := mkCallError {
  status  : string;
  code    : Z;
  message : string
}.

(** [func newError(code StatusCode, format string, a ...interface{}) callError] *)
Definition newError (code : StatusCode) (format : string) (a : list string) : callError :=
  let s := match statuses !! code with
           | Some s => s
           | None => default ("", 0) (statuses !! Internal)
           end in
  {| status := fst s; code := snd s; message := Sprintf format a |}.

(** [func (e callError) Error() string] *)
Definition callError_Error (e : callError) : string :=
  let str := status e in
  if (0 <? Z.of_nat (String.length (message e)))%Z then str +:+ " " +:+ message e
  else str.

End Response.

(** * Go errors *)

Module Errors.
Import Response.

(** The error values the package meets: its own [callError], the two
    sentinels of package [context], an opaque error ([errors.New],
    [fmt.Errorf] without [%w]) and an error that wraps another one
    ([fmt.Errorf] with [%w]; [text] is its whole message). *)
Inductive error :=
| CallError (e : callError)
| Canceled
| ContextDeadlineExceeded
| ErrorString (text : string)
| Wrap (text : string) (inner : error).

(** [err.Error()] *)
Definition Error_ (err : error) : string :=
  match err with
  | CallError e => callError_Error e
  | Canceled => "context canceled"
  | ContextDeadlineExceeded => "context deadline exceeded"
  | ErrorString text => text
  | Wrap text _ => text
  end.

(** [errors.As(err, &cerr)] with [cerr] of type [callError]: the first
    [callError] on the chain of [Unwrap]. *)
Fixpoint As (err : error) : option callError :=
  match err with
  | CallError e => Some e
  | Wrap _ inner => As inner
  | _ => None
  end.

(** [errors.Is(err, context.Canceled)] *)
Fixpoint IsCanceled (err : error) : bool :=
  match err with
  | Canceled => true
  | Wrap _ inner => IsCanceled inner
  | _ => false
  end.

(** [errors.Is(err, context.DeadlineExceeded)] *)
Fixpoint IsDeadlineExceeded (err : error) : bool :=
  match err with
  | ContextDeadlineExceeded => true
  | Wrap _ inner => IsDeadlineExceeded inner
  | _ => false
  end.

(** [func Error(code StatusCode, format string, a ...interface{}) error] *)
Definition Error (code : StatusCode) (format : string) (a : list string) : error :=
  CallError (newError code format a).

End Errors.

(** * Package [net/http]: headers, requests and the response writer *)

Module Http.

(** [type Header map[string][]string] *)
Abbreviation Header := (gmap string (list string)).

(** [h.Values(key)] *)
Definition Values (h : Header) (key : string) : list string :=
  default [] (h !! key).

(** [h.Get(key)]: the first value of the key, the empty string when
    there is none. *)
Definition Get (h : Header) (key : string) : string :=
  match Values h key with
  | v :: _ => v
  | [] => ""
  end.

(** [h.Add(key, value)] *)
Definition Add (key value : string) (h : Header) : Header :=
  <[key := (Values h key ++ [value])%list]> h.

(** [h.Set(key, value)] *)
Definition Set_ (key value : string) (h : Header) : Header :=
  <[key := [value]]> h.

Definition MethodOptions : string := "OPTIONS".
Definition MethodPost : string := "POST".

Definition StatusOK : Z := 200.
Definition StatusNoContent : Z := 204.
Definition StatusMethodNotAllowed : Z := 405.

(** What the package writes to a response body: the values it hands to
    the JSON encoder ([dataResponse], [errorResponse]) and the plain
    text line of [http.Error]. *)
Inductive written (O : Type) :=
| DataResponse (Data : O)
| ErrorResponse (Status Message : string)
| Text (line : string).
Arguments DataResponse {O} Data.
Arguments ErrorResponse {O} Status Message.
Arguments Text {O} line.

(** The response writer.  [wrote] is set by the first [WriteHeader] and
    keeps the status with the headers as they were then: later changes
    of [HeaderMap] do not reach the client. *)
Record ResponseRecorder (O : Type) := mkRecorder {
  HeaderMap : Header;
  wrote : option (Z * Header);
  Body : list (written O)
}.
Arguments mkRecorder {O}.
Arguments HeaderMap {O}.
Arguments wrote {O}.
Arguments Body {O}.

Definition NewRecorder {O} : ResponseRecorder O :=
  {| HeaderMap := ∅; wrote := None; Body := [] |}.

(** [w.Header()] followed by a change of the map. *)
Definition withHeader {O} (f : Header → Header) (w : ResponseRecorder O) : ResponseRecorder O :=
  {| HeaderMap := f (HeaderMap w); wrote := wrote w; Body := Body w |}.

(** [w.WriteHeader(code)] *)
Definition WriteHeader {O} (code : Z) (w : ResponseRecorder O) : ResponseRecorder O :=
  match wrote w with
  | Some _ => w
  | None => {| HeaderMap := HeaderMap w; wrote := Some (code, HeaderMap w); Body := Body w |}
  end.

(** [w.Write(...)]: the first write sends the header with status 200
    when none was sent. *)
Definition Write {O} (x : written O) (w : ResponseRecorder O) : ResponseRecorder O :=
  let w := WriteHeader StatusOK w in
  {| HeaderMap := HeaderMap w; wrote := wrote w; Body := (Body w ++ [x])%list |}.

(** The response the client receives. *)
Definition StatusCode {O} (w : ResponseRecorder O) : Z :=
  match wrote w with
  | Some (code, _) => code
  | None => StatusOK
  end.

Definition ResultHeader {O} (w : ResponseRecorder O) : Header :=
  match wrote w with
  | Some (_, h) => h
  | None => HeaderMap w
  end.

(** [func Error(w ResponseWriter, error string, code int)] *)
Definition Error {O} (error : string) (code : Z) (w : ResponseRecorder O) : ResponseRecorder O :=
  let w := withHeader (Set_ "Content-Type" "text/plain; charset=utf-8") w in
  let w := withHeader (Set_ "X-Content-Type-Options" "nosniff") w in
  let w := WriteHeader code w in
  Write (Text (error +:+ String (ascii_of_nat 10) EmptyString)) w.

End Http.

(** * Package [encoding/json]: decoding the request payload *)

Module Json.
Import Strings.

Inductive json :=
| Null
| Bool (b : bool)
| Number (literal : string)
| Str (s : string)
| Array (elements : list json)
| Object (members : list (string * json)).

(** A request body as the decoder reads it: the first JSON value of the
    stream, or the error of the scanner (a syntax error, [EOF] on an
    empty body). *)
Inductive body :=
| Invalid (err : string)
| Value (v : json).

(** How [UnmarshalTypeError] names the JSON value it met. *)
Definition valueName (v : json) : string :=
  match v with
  | Null => "null"
  | Bool _ => "bool"
  | Number _ => "number"
  | Str _ => "string"
  | Array _ => "array"
  | Object _ => "object"
  end.

Definition dq : string := String (ascii_of_nat 34) EmptyString.

(** The name of the anonymous struct that [handlePost] decodes into, as
    package [reflect] prints it. *)
Definition payloadType : string :=
  "struct { Data interface {} " +:+ dq +:+ "json:\" +:+ dq +:+ "data\" +:+ dq +:+ dq +:+ " }".

Section Decode.
Context {I : Type}.

(** Unmarshalling of one JSON value (not [null]) into the request
    object that the [Data] field points to: the object afterwards and
    the error, if any. *)
Variable UnmarshalJSON : json → I → I * option string.

(** A key of the object selects the field tagged [data] when it
    equals the tag up to the case of its letters. *)
Definition isData (key : string) : bool :=
  bool_decide (ToLower key = "data").

(** The decoder's state on the way through the members of the
    object: the request object, whether [Data] still points to it,
    and the first error saved. *)
Definition member (st : I * bool * option string) (m : string * json)
  : I * bool * option string :=
  let '(target, attached, saved) := st in
  if isData (fst m) then
    match snd m with
    | Null => (target, false, saved)
    | v =>
        if attached then
          let '(target', err) := UnmarshalJSON v target in
          (target', true, if saved is Some _ then saved else err)
        else (target, false, saved)
    end
  else st.

(** [json.NewDecoder(r.Body).Decode(&payload)] with
    [payload = struct{ Data interface{} `json:"data"` }{c.request}].
    A [null] has no effect on a struct; the members of an object are
    taken in order, those that name no field are skipped, and nothing
    demands that a field be present; any other value does not fit a
    struct. *)
Definition Decode (b : body) (target : I) : I * option string :=
  match b with
  | Invalid err => (target, Some err)
  | Value Null => (target, None)
  | Value (Object members) =>
      let '(target', _, saved) := fold_left member members (target, true, None) in
      (target', saved)
  | Value v =>
      (target, Some ("json: cannot unmarshal " +:+ valueName v
                     +:+ " into Go value of type " +:+ payloadType))
  end.

End Decode.

End Json.

(** * callable.go *)

Module Callable.
Import Strings Response Http Json Errors.

(** [logr.Logger], named by its sink. *)
Definition Logger := string.

(** What reaches a logger: the error and the message of
    [logger.Error].  The sink is [None] for the discarding logger. *)
Record entry := mkEntry {
  sink : option Logger;
  logged : error;
  msg : string
}.

(** [context.Context] of a request: the logger it carries, if any, and
    [ctx.Err()]. *)
Record Context := mkContext {
  ctxLogger : option Logger;
  ctxErr : option error
}.

(** [logr.FromContextOrDiscard] *)
Definition FromContextOrDiscard (ctx : Context) : option Logger := ctxLogger ctx.

(** [*http.Request] *)
Record HttpRequest := mkRequest {
  Method : string;
  Header : Http.Header;
  Body : Json.body;
  Ctx : Context
}.

(** [type Call struct { UID string; IID string }] *)
Record Call := mkCall {
  UID : string;
  IID : string
}.

(** [*auth.Token]; the package reads its [UID]. *)
Record Token := mkToken {
  TokenUID : string
}.

(** [*auth.Client]: the method the package calls, which returns a
    token and an error as Go does. *)
Record Client := mkClient {
  VerifyIDTokenAndCheckRevoked : Context → string → option Token * option error
}.

(** A call that returns or panics. *)
Inductive outcome (A : Type) :=
| Returns (a : A)
| Panics (v : string).
Arguments Returns {A} a.
Arguments Panics {A} v.

Section Dispatch.
(** [I] is the type of the request object that [New] receives by
    reference, [O] the type of the values [Handle] returns. *)
Context {I O : Type}.

(** [mime.ParseMediaType] *)
Variable ParseMediaType : string → string * gmap string string * option error.

(** [type Request interface { Handle(context.Context, Call) (interface{}, error) }]
    together with the way a JSON value unmarshals into the object and
    the error of marshalling a result, if there is one. *)
Record Request := mkHandler {
  Handle : I → Context → Call → O * option error;
  UnmarshalJSON : json → I → I * option string;
  Marshal : O → option error
}.

(** [type Callable struct] *)
Record Callable := mkCallable {
  request : Request;
  authClient : option Client;
  authRequired : bool;
  logger : option Logger
}.

(** [type Option interface { config(c *Callable) }] and its two
    implementations [authOption] and [loggerOption]. *)
Inductive Option :=
| authOption (client : option Client) (required : bool)
| loggerOption (logger : Logger).

Definition config (c : Callable) (o : Option) : Callable :=
  match o with
  | authOption client required =>
      {| request := request c; authClient := client;
         authRequired := required; logger := logger c |}
  | loggerOption l =>
      {| request := request c; authClient := authClient c;
         authRequired := authRequired c; logger := Some l |}
  end.

(** [func New(request Request, opts ...Option) *Callable] *)
Definition New (request : Request) (opts : list Option) : Callable :=
  fold_left config opts
    {| request := request; authClient := None; authRequired := false; logger := None |}.

(** [func WithAuth(client *auth.Client, required bool) Option] *)
Definition WithAuth (client : option Client) (required : bool) : outcome Option :=
  match client with
  | None => Panics "nil *auth.Client"
  | Some _ => Returns (authOption client required)
  end.

(** [func WithLogger(logger logr.Logger) Option] *)
Definition WithLogger (l : Logger) : Option := loggerOption l.

(** What a request works on: the response writer, the request object
    behind [c.request] and the log. *)
Record State := mkState {
  w : ResponseRecorder O;
  target : I;
  log : list entry
}.

Definition NewState (target : I) : State :=
  {| w := NewRecorder; target := target; log := [] |}.

Definition onWriter (f : ResponseRecorder O → ResponseRecorder O) (st : State) : State :=
  {| w := f (w st); target := target st; log := log st |}.

Definition setTarget (t : I) (st : State) : State :=
  {| w := w st; target := t; log := log st |}.

(** [logger.Error(err, msg, ...)] *)
Definition logError (l : option Logger) (err : error) (m : string) (st : State) : State :=
  {| w := w st; target := target st;
     log := (log st ++ [{| sink := l; logged := err; msg := m |}])%list |}.

(** [func (e callError) write(w http.ResponseWriter)] *)
Definition write (e : callError) (w : ResponseRecorder O) : ResponseRecorder O :=
  let w := withHeader (Set_ "Content-Type" "application/json") w in
  let w := WriteHeader (code e) w in
  Write (ErrorResponse (status e) (message e)) w.

(** [func (c *Callable) validateToken(r *http.Request)], which returns a
    token and an error. *)
Definition validateToken (c : Callable) (r : HttpRequest) : option Token * option error :=
  match authClient c with
  | None => (None, None)
  | Some client =>
      let parts := Fields (Get (Header r) "Authorization") in
      if bool_decide (length parts = 0%nat) && authRequired c then
        (None, Some (ErrorString (Sprintf "missing Authorization header" [])))
      else if bool_decide (length parts ≠ 2%nat)
              || bool_decide (parts !! 0%nat ≠ Some "Bearer") then
        (None, Some (ErrorString (Sprintf "unsupported Authorization header" [])))
      else
        match VerifyIDTokenAndCheckRevoked client (Ctx r) (default "" (parts !! 1%nat)) with
        | (_, Some err) => (None, Some err)
        | (token, None) => (token, None)
        end
  end.

(** [func (c *Callable) handleCorsPreflight(w http.ResponseWriter, r *http.Request)] *)
Definition handleCorsPreflight (c : Callable) (r : HttpRequest) (st : State) : State :=
  let st := onWriter (withHeader (Add "Vary" "Origin")) st in
  let st := onWriter (withHeader (Add "Vary" "Access-Control-Request-Headers")) st in
  let st := onWriter (withHeader (Add "Access-Control-Allow-Methods" "POST")) st in
  let st :=
    if bool_decide (Get (Header r) "Access-Control-Request-Headers" ≠ "") then
      onWriter (withHeader (Add "Access-Control-Allow-Headers" "*")) st
    else st in
  let origin := Get (Header r) "Origin" in
  let st :=
    if bool_decide (origin ≠ "") then
      onWriter (withHeader (Add "Access-Control-Allow-Origin" origin)) st
    else st in
  onWriter (WriteHeader StatusNoContent) st.

(** [func (c *Callable) handlePost(w http.ResponseWriter, r *http.Request) error] *)
Definition handlePost (c : Callable) (r : HttpRequest) (st : State) : State * option error :=
  match validateToken c r with
  | (_, Some err) =>
      (st, Some (Error Unauthenticated "invalid ID token: %v" [Error_ err]))
  | (token, None) =>
      let ct := Get (Header r) "Content-Type" in
      if bool_decide (ct = "") then
        (st, Some (Error InvalidArgument "missing content type" []))
      else
        let '(mt, mp, err) := ParseMediaType ct in
        if bool_decide (err ≠ None) then
          (st, Some (Error InvalidArgument "invalid content type" []))
        else if bool_decide (mt ≠ "application/json") then
          (st, Some (Error InvalidArgument "unsupported content type" []))
        else
          let cs := ToLower (default "" (mp !! "charset")) in
          if bool_decide (cs ≠ "") && bool_decide (cs ≠ "utf-8")
             && bool_decide (cs ≠ "utf8") then
            (st, Some (Error InvalidArgument "unsupported encoding" []))
          else
            (* send CORS headers *)
            let st := onWriter (withHeader (Add "Vary" "Origin")) st in
            let origin := Get (Header r) "Origin" in
            let st :=
              if bool_decide (origin ≠ "") then
                onWriter (withHeader (Add "Access-Control-Allow-Origin" origin)) st
              else st in
            let '(target', derr) :=
              Decode (UnmarshalJSON (request c)) (Body r) (target st) in
            let st := setTarget target' st in
            match derr with
            | Some e =>
                (st, Some (Error InvalidArgument "failed to decode payload: %v" [e]))
            | None =>
                let logger :=
                  match logger c with
                  | None => FromContextOrDiscard (Ctx r)
                  | Some l => Some l
                  end in
                let call :=
                  {| UID := match token with Some t => TokenUID t | None => "" end;
                     IID := Get (Header r) "Firebase-Instance-ID-Token" |} in
                match Handle (request c) (target st) (Ctx r) call with
                | (_, Some err) =>
                    (logError logger err "callable returned error" st, Some err)
                | (result, None) =>
                    let st :=
                      onWriter (withHeader
                        (Add "Content-Type" "application/json; charset=utf-8")) st in
                    match Marshal (request c) result with
                    | None => (onWriter (Write (DataResponse result)) st, None)
                    | Some err =>
                        (logError logger err "failed to write response" st, None)
                    end
                end
            end
  end.

(** [func (c *Callable) ServeHTTP(w http.ResponseWriter, r *http.Request)] *)
Definition ServeHTTP (c : Callable) (r : HttpRequest) (st : State) : State :=
  if bool_decide (Method r = MethodOptions) then handleCorsPreflight c r st
  else if bool_decide (Method r = MethodPost) then
    match handlePost c r st with
    | (st, Some err) =>
        let cerr :=
          match As err with
          | Some cerr => cerr
          | None =>
              if IsCanceled err then newError Cancelled "%s" [Error_ err]
              else if IsDeadlineExceeded err then newError DeadlineExceeded "%s" [Error_ err]
              else newError Internal "%s" [Error_ err]
          end in
        onWriter (write cerr) st
    | (st, None) => st
    end
  else onWriter (Http.Error "" StatusMethodNotAllowed) st.

End Dispatch.

End Callable.

(** * callable_test.go: the request type of the tests *)

Module Test.
Import Strings Response Http Json Errors Callable.

(** [type testRequest struct { Who string `json:"who"` }] *)
Record testRequest := mkTestRequest { Who : string }.

(** [type testResponse struct { Greeting string `json:"greeting"` }] *)
Record testResponse := mkTestResponse { Greeting : string }.

(** [func (r *testRequest) Handle(ctx context.Context, call Call) (interface{}, error)] *)
Definition Handle (r : testRequest) (ctx : Context) (call : Call)
  : option testResponse * option error :=
  if bool_decide (Who r = "") then (None, Some (Error NotFound "nobody to greet" []))
  else if bool_decide (Who r = "error") then (None, Some (ErrorString "some error"))
  else if bool_decide (IID call ≠ "") then
    (Some {| Greeting := "IID: " +:+ IID call |}, None)
  else (Some {| Greeting := "Hello " +:+ Who r +:+ "!" |}, None).

(** Unmarshalling into a [testRequest]: the member [who] must be a
    string (or [null], which changes nothing); other members are
    skipped. *)
Definition whoMember (st : testRequest * option string) (m : string * json)
  : testRequest * option string :=
  if bool_decide (ToLower (fst m) = "who") then
    match snd m with
    | Str s => ({| Who := s |}, snd st)
    | Null => st
    | v =>
        (fst st,
         if snd st is Some _ then snd st
         else Some ("json: cannot unmarshal " +:+ valueName v
                    +:+ " into Go struct field testRequest.data.who of type string"))
    end
  else st.

Definition UnmarshalJSON (v : json) (r : testRequest) : testRequest * option string :=
  match v with
  | Object members => fold_left whoMember members (r, None)
  | v =>
      (r, Some ("json: cannot unmarshal " +:+ valueName v
                +:+ " into Go struct field .data of type callable.testRequest"))
  end.

Definition testHandler : Request (I := testRequest) (O := option testResponse) :=
  {| Callable.Handle := Handle;
     Callable.UnmarshalJSON := UnmarshalJSON;
     Marshal := fun _ => None |}.

(** A handler that returns a channel, which package [encoding/json]
    cannot marshal. *)
Definition chanHandler : Request (I := unit) (O := unit) :=
  {| Callable.Handle := fun _ _ _ => (tt, None);
     Callable.UnmarshalJSON := fun _ t => (t, None);
     Marshal := fun _ => Some (ErrorString "json: unsupported type: chan int") |}.

(** The no-break space U+00A0 in UTF-8. *)
Definition nbsp : string := String (ascii_of_nat 194) (String (ascii_of_nat 160) "").

(** A content type with an empty quoted charset: [application/json; charset=] followed
    by two double quotes. *)
Definition emptyCharset : string := "application/json; charset=" +:+ dq +:+ dq.

(** [mime.ParseMediaType] on the content types of the examples (its
    value on any other header is not used). *)
Definition ParseMediaType (v : string) : string * gmap string string * option error :=
  if bool_decide (v = "application/json") then ("application/json", ∅, None)
  else if bool_decide (v = "text/plain") then ("text/plain", ∅, None)
  else if bool_decide (v = "application/json; charset=iso-8859-1") then
    ("application/json", {["charset" := "iso-8859-1"]}, None)
  else if bool_decide (v = emptyCharset) then
    ("application/json", {["charset" := ""]}, None)
  else ("", ∅, Some (ErrorString "mime: no media type")).

(** An auth client that accepts every token, and one that rejects
    every token. *)
Definition acceptAll : Client :=
  {| VerifyIDTokenAndCheckRevoked := fun _ tok => (Some {| TokenUID := "uid-" +:+ tok |}, None) |}.

Definition rejectAll : Client :=
  {| VerifyIDTokenAndCheckRevoked := fun _ _ => (None, Some (ErrorString "ID token has expired")) |}.

Definition background : Context := {| ctxLogger := None; ctxErr := None |}.

(** [httptest.NewRequest(method, "/", body)] with the given headers. *)
Definition NewRequest (method : string) (headers : list (string * string)) (b : body)
  : HttpRequest :=
  {| Method := method;
     Header := fold_left (fun h kv => Set_ (fst kv) (snd kv) h) headers ∅;
     Body := b;
     Ctx := background |}.

(** [New(&testRequest{}, opts...).ServeHTTP(w, r)] on a new recorder. *)
Definition serve (opts : list Option) (r : HttpRequest) : State :=
  ServeHTTP ParseMediaType (New testHandler opts) r (NewState {| Who := "" |}).

(** The JSON text [{"data":{"who":<who>}}]. *)
Definition dataWho (who : string) : body :=
  Value (Object [("data", Object [("who", Str who)])]).

End Test.

(** * Notions used to state the properties *)

Module Stages.
Import Strings Response Http Json Errors Callable.

(** [WithAuth] and [WithLogger] are the only ways to an [Option] from
    outside the package. *)
Inductive exported : Option → Prop :=
| exported_auth client required o :
    WithAuth client required = Returns o → exported o
| exported_logger l : exported (WithLogger l).

(** Every [callError] on the chain of the error was made by [Error]
    (the type is not exported, so a handler has no other way to one). *)
Fixpoint made_by_Error (err : error) : Prop :=
  match err with
  | CallError e => ∃ k format a, e = newError k format a
  | Wrap _ inner => made_by_Error inner
  | _ => True
  end.

(** The error that [ServeHTTP] writes for a failure of [handlePost]. *)
Definition classify (err : error) : callError :=
  match As err with
  | Some cerr => cerr
  | None =>
      if IsCanceled err then newError Cancelled "%s" [Error_ err]
      else if IsDeadlineExceeded err then newError DeadlineExceeded "%s" [Error_ err]
      else newError Internal "%s" [Error_ err]
  end.

Section Stages.
Context {I O : Type}.
Variable ParseMediaType : string → string * gmap string string * option error.
Implicit Types (c : Callable (I := I) (O := O)) (r : HttpRequest).

(** Identity verification passes: [validateToken] returns no error. *)
Definition verified c r : bool :=
  bool_decide (snd (validateToken c r) = None).

(** Content negotiation passes: none of the four checks of [handlePost]
    on the [Content-Type] header fails. *)
Definition negotiated r : bool :=
  let ct := Get (Header r) "Content-Type" in
  let '(mt, mp, err) := ParseMediaType ct in
  let cs := ToLower (default "" (mp !! "charset")) in
  negb (bool_decide (ct = ""))
  && negb (bool_decide (err ≠ None))
  && negb (bool_decide (mt ≠ "application/json"))
  && negb (bool_decide (cs ≠ "") && bool_decide (cs ≠ "utf-8") && bool_decide (cs ≠ "utf8")).

(** The CORS headers of the answer to a POST. *)
Definition actualResponseHeaders (origin : string) (h : Http.Header) : Http.Header :=
  let h := Add "Vary" "Origin" h in
  if bool_decide (origin ≠ "") then Add "Access-Control-Allow-Origin" origin h else h.

(** The [Call] handed to the handler. *)
Definition CallContext (token : option Token) r : Call :=
  {| UID := match token with Some t => TokenUID t | None => "" end;
     IID := Get (Header r) "Firebase-Instance-ID-Token" |}.

(** The logger of a request. *)
Definition loggerOf c r : option Logger :=
  match logger c with
  | None => FromContextOrDiscard (Ctx r)
  | Some l => Some l
  end.

(** The errors of a handler are made by [Error] where they are typed. *)
Definition handler_made_by_Error c : Prop :=
  ∀ t ctx call result err,
    Handle (request c) t ctx call = (result, Some err) → made_by_Error err.

End Stages.

End Stages.

(** The proofs below unfold these by hand. *)
#[global] Arguments Strings.Sprintf : simpl never.
#[global] Arguments Strings.ToLower : simpl never.
#[global] Arguments Strings.Fields : simpl never.
#[global] Arguments Response.newError : simpl never.
#[global] Arguments Errors.Error : simpl never.
#[global] Arguments Http.Values : simpl never.
#[global] Arguments Http.Get : simpl never.
#[global] Arguments Http.Add : simpl never.
#[global] Arguments Http.Set_ : simpl never.
#[global] Arguments Json.Decode : simpl never.

(** * Properties of the error taxonomy *)

Module ResponseFacts.
Import Strings Response Errors.

Lemma statuses_outside (k : Z) : (k < 0 ∨ 15 < k)%Z → statuses !! k = None.
Proof.
  intros Hk. unfold statuses.
  repeat (rewrite lookup_insert_ne;
          [| unfold InvalidArgument, FailedPrecondition, OutOfRange, Unauthenticated,
               PermissionDenied, NotFound, Aborted, AlreadyExists, ResourceExhausted,
               Cancelled, DataLoss, Unknown, Internal, NotImplemented, Unavailable,
               DeadlineExceeded; lia]).
  apply lookup_empty.
Qed.

Lemma statuses_Internal : statuses !! Internal = Some ("INTERNAL", 500).
Proof. reflexivity. Qed.

(** Every entry of the table has a code from 400 to 504. *)
Lemma statuses_code_range (k : Z) (s : string) (c : Z) :
  statuses !! k = Some (s, c) → (400 ≤ c ≤ 504)%Z.
Proof.
  unfold statuses. intros H.
  repeat match type of H with
         | <[?i := _]> _ !! _ = _ =>
             rewrite lookup_insert in H; case_decide;
             [injection H as <- <-; lia |]
         end.
  rewrite lookup_empty in H. discriminate.
Qed.

Lemma newError_code_range (k : StatusCode) (format : string) (a : list string) :
  (400 ≤ code (newError k format a) ≤ 504)%Z.
Proof.
  unfold newError. destruct (statuses !! k) as [[s c]|] eqn:Hk.
  - simpl. eapply statuses_code_range, Hk.
  - rewrite statuses_Internal. simpl. lia.
Qed.

(** A format without verbs and without operands is printed as it is;
    one operand under [%s] or [%v] at the end is appended. *)
Lemma append_empty_r (x : string) : x +:+ "" = x.
Proof.
  induction x as [|c x IH]; [reflexivity |].
  change (String c (x +:+ "") = String c x). by rewrite IH.
Qed.

Lemma Sprintf_invalid_token (x : string) :
  Sprintf "invalid ID token: %v" [x] = "invalid ID token: " +:+ x.
Proof.
  transitivity ("invalid ID token: " +:+ (x +:+ "")); [reflexivity |].
  by rewrite append_empty_r.
Qed.

Lemma Sprintf_failed_to_decode (x : string) :
  Sprintf "failed to decode payload: %v" [x] = "failed to decode payload: " +:+ x.
Proof.
  transitivity ("failed to decode payload: " +:+ (x +:+ "")); [reflexivity |].
  by rewrite append_empty_r.
Qed.


Lemma Error_InvalidArgument (format : string) (a : list string) :
  Error InvalidArgument format a
  = CallError (mkCallError "INVALID_ARGUMENT" 400 (Sprintf format a)).
Proof. reflexivity. Qed.

Lemma Error_Unauthenticated (format : string) (a : list string) :
  Error Unauthenticated format a
  = CallError (mkCallError "UNAUTHENTICATED" 401 (Sprintf format a)).
Proof. reflexivity. Qed.


(** C6.  Constructing an error from a status kind gives the canonical
    status string and HTTP code of the table: INVALID_ARGUMENT 400,
    FAILED_PRECONDITION 400, OUT_OF_RANGE 400, UNAUTHENTICATED 401,
    PERMISSION_DENIED 403, NOT_FOUND 404, ABORTED 409, ALREADY_EXISTS 409,
    RESOURCE_EXHAUSTED 429, CANCELLED 499, DATA_LOSS 500, UNKNOWN 500,
    INTERNAL 500, NOT_IMPLEMENTED 501, UNAVAILABLE 503,
    DEADLINE_EXCEEDED 504; a kind outside the enumeration gives what
    [Internal] gives. *)
Theorem newError_status_table (format : string) (a : list string) :
  let m := Sprintf format a in
  newError InvalidArgument format a = mkCallError "INVALID_ARGUMENT" 400 m
  ∧ newError FailedPrecondition format a = mkCallError "FAILED_PRECONDITION" 400 m
  ∧ newError OutOfRange format a = mkCallError "OUT_OF_RANGE" 400 m
  ∧ newError Unauthenticated format a = mkCallError "UNAUTHENTICATED" 401 m
  ∧ newError PermissionDenied format a = mkCallError "PERMISSION_DENIED" 403 m
  ∧ newError NotFound format a = mkCallError "NOT_FOUND" 404 m
  ∧ newError Aborted format a = mkCallError "ABORTED" 409 m
  ∧ newError AlreadyExists format a = mkCallError "ALREADY_EXISTS" 409 m
  ∧ newError ResourceExhausted format a = mkCallError "RESOURCE_EXHAUSTED" 429 m
  ∧ newError Cancelled format a = mkCallError "CANCELLED" 499 m
  ∧ newError DataLoss format a = mkCallError "DATA_LOSS" 500 m
  ∧ newError Unknown format a = mkCallError "UNKNOWN" 500 m
  ∧ newError Internal format a = mkCallError "INTERNAL" 500 m
  ∧ newError NotImplemented format a = mkCallError "NOT_IMPLEMENTED" 501 m
  ∧ newError Unavailable format a = mkCallError "UNAVAILABLE" 503 m
  ∧ newError DeadlineExceeded format a = mkCallError "DEADLINE_EXCEEDED" 504 m
  ∧ (∀ k : StatusCode, (k < 0 ∨ 15 < k)%Z →
       newError k format a = newError Internal format a
       ∧ newError k format a = mkCallError "INTERNAL" 500 m).
Proof.
  intros m. repeat split; try reflexivity.
  all: unfold newError; rewrite statuses_outside by assumption; reflexivity.
Qed.

(** The kind [-1] of [TestCallError_invalidStatus]. *)
Lemma newError_status_table_witness :
  newError (-1) "test message with %s" ["param"]
  = mkCallError "INTERNAL" 500 "test message with param".
Proof.
  destruct (newError_status_table "test message with %s" ["param"])
    as (_ & _ & _ & _ & _ & _ & _ & _ & _ & _ & _ & _ & _ & _ & _ & _ & H).
  destruct (H (-1)%Z) as [_ H']; [left; lia | exact H'].
Defined.

End ResponseFacts.

(** * Properties of headers and of the response writer *)

Module HttpFacts.
Import Http.

Lemma Values_Add_eq (key value : string) (h : Header) :
  Values (Add key value h) key = (Values h key ++ [value])%list.
Proof. unfold Add, Values at 1. by rewrite lookup_insert_eq. Qed.

Lemma Values_Add_ne (key key' value : string) (h : Header) :
  key ≠ key' → Values (Add key value h) key' = Values h key'.
Proof. intros Hne. unfold Add, Values at 1. by rewrite lookup_insert_ne. Qed.

Lemma Values_Set_eq (key value : string) (h : Header) :
  Values (Set_ key value h) key = [value].
Proof. unfold Set_, Values. by rewrite lookup_insert_eq. Qed.

Lemma Values_Set_ne (key key' value : string) (h : Header) :
  key ≠ key' → Values (Set_ key value h) key' = Values h key'.
Proof. intros Hne. unfold Set_, Values. by rewrite lookup_insert_ne. Qed.

(** What a recorder that has sent nothing yet becomes when the header
    is sent, and when something is written. *)
Lemma WriteHeader_fresh {O} (code : Z) (w : ResponseRecorder O) :
  wrote w = None →
  WriteHeader code w = mkRecorder (HeaderMap w) (Some (code, HeaderMap w)) (Body w).
Proof. intros H. unfold WriteHeader. by rewrite H. Qed.

Lemma Write_fresh {O} (x : written O) (w : ResponseRecorder O) :
  wrote w = None →
  Write x w = mkRecorder (HeaderMap w) (Some (StatusOK, HeaderMap w)) (Body w ++ [x])%list.
Proof. intros H. unfold Write. by rewrite WriteHeader_fresh. Qed.

End HttpFacts.

Create Rewrite HintDb headers.
#[global] Hint Rewrite HttpFacts.Values_Add_eq HttpFacts.Values_Set_eq : headers.
#[global] Hint Rewrite HttpFacts.Values_Add_ne HttpFacts.Values_Set_ne using discriminate : headers.

(** * Properties of the dispatch *)

Module CallableFacts.
Import Strings Response Http Json Errors Callable Stages ResponseFacts HttpFacts.


Section Construction.
Context {I O : Type}.
Implicit Types (c : Callable (I := I) (O := O)) (o : Option).

Lemma exported_auth_client client required :
  exported (authOption client required) → is_Some client.
Proof.
  inversion 1 as [client' required' o' Hret |]; subst.
  destruct client' as [cl|]; simpl in Hret; [| discriminate].
  injection Hret as <- <-. by eexists.
Qed.

(** The options are applied from left to right: the client of the
    callable is that of the last [authOption], if there is one. *)
Lemma fold_config_client (opts : list Option) c :
  Forall exported opts →
  (Exists (λ o, ∃ client required, o = authOption client required) opts
   ∨ is_Some (authClient c)) →
  is_Some (authClient (fold_left config opts c)).
Proof.
  revert c. induction opts as [|o opts IH]; intros c Hexp Hc; simpl.
  - destruct Hc as [Hc | Hc]; [by apply Exists_nil in Hc | done].
  - apply Forall_cons in Hexp as [Ho Hexp]. apply IH; [done |].
    destruct Hc as [Hc | Hc].
    + apply Exists_cons in Hc as [(client & required & ->) | Hc]; [| by left].
      right. simpl. by eapply exported_auth_client.
    + destruct o as [client required | l]; [| by right].
      right. simpl. by eapply exported_auth_client.
Qed.

(** C10.  [WithAuth] panics on a nil client whatever the flag says, and
    when it returns, the option carries the client it was given; hence a
    callable built from exported options of which one configures a
    verifier holds a client that is not nil. *)
Theorem WithAuth_nil_panics :
  (∀ required, WithAuth None required = Panics "nil *auth.Client")
  ∧ (∀ client required o,
       WithAuth client required = Returns o →
       ∃ cl, client = Some cl ∧ o = authOption (Some cl) required
             ∧ ∀ request : Request (I := I) (O := O),
                 authClient (New request [o]) = Some cl)
  ∧ (∀ (request : Request (I := I) (O := O)) (opts : list Option),
       Forall exported opts →
       Exists (λ o, ∃ client required, o = authOption client required) opts →
       is_Some (authClient (New request opts))).
Proof.
  split; [done |]. split.
  - intros [cl|] required o Hret; simpl in Hret; [| discriminate].
    injection Hret as <-. by exists cl.
  - intros request opts Hexp Hauth. unfold New.
    apply fold_config_client; [done | by left].
Qed.

End Construction.

(** A callable built with [WithAuth] on the accepting client and a
    logger holds that client. *)
Lemma WithAuth_nil_panics_witness :
  is_Some (authClient (New Test.testHandler
             [authOption (Some Test.acceptAll) true; WithLogger "stderr"])).
Proof.
  apply WithAuth_nil_panics.
  - repeat constructor. by apply (exported_auth (Some Test.acceptAll) true).
  - apply Exists_cons. left. by eexists _, _.
Defined.

Section Dispatching.
Context {I O : Type}.
Variable ParseMediaType : string → string * gmap string string * option error.
Implicit Types (c : Callable (I := I) (O := O)) (r : HttpRequest)
  (st : State (I := I) (O := O)).

#[local] Abbreviation handlePost := (handlePost ParseMediaType).
#[local] Abbreviation ServeHTTP := (ServeHTTP ParseMediaType).
#[local] Abbreviation negotiated := (negotiated ParseMediaType).

(** ** Method routing *)

Lemma ServeHTTP_options c r st :
  Method r = MethodOptions → ServeHTTP c r st = handleCorsPreflight c r st.
Proof. intros Hm. unfold Callable.ServeHTTP. by rewrite Hm. Qed.

Lemma ServeHTTP_post c r st :
  Method r = MethodPost →
  ServeHTTP c r st =
    match handlePost c r st with
    | (st', Some err) => onWriter (write (classify err)) st'
    | (st', None) => st'
    end.
Proof. intros Hm. unfold Callable.ServeHTTP. by rewrite Hm. Qed.

(** ** The preflight *)

(** C9, as the code has it.  The answer to an OPTIONS request adds
    [Vary: Origin], [Vary: Access-Control-Request-Headers] and
    [Access-Control-Allow-Methods: POST]; it adds
    [Access-Control-Allow-Headers: *] exactly when the first value of
    [Access-Control-Request-Headers] is not empty, and
    [Access-Control-Allow-Origin] with the first value of [Origin] exactly
    when that value is not empty; the status is 204 and nothing is
    written to the body. *)
Theorem preflight_response c r st :
  Method r = MethodOptions →
  wrote (w st) = None →
  let h := HeaderMap (w st) in
  let res := w (ServeHTTP c r st) in
  let origin := Get (Header r) "Origin" in
  Values (ResultHeader res) "Vary"
    = (Values h "Vary" ++ ["Origin"; "Access-Control-Request-Headers"])%list
  ∧ Values (ResultHeader res) "Access-Control-Allow-Methods"
    = (Values h "Access-Control-Allow-Methods" ++ ["POST"])%list
  ∧ Values (ResultHeader res) "Access-Control-Allow-Headers"
    = (Values h "Access-Control-Allow-Headers"
       ++ if bool_decide (Get (Header r) "Access-Control-Request-Headers" ≠ "")
          then ["*"] else [])%list
  ∧ Values (ResultHeader res) "Access-Control-Allow-Origin"
    = (Values h "Access-Control-Allow-Origin"
       ++ if bool_decide (origin ≠ "") then [origin] else [])%list
  ∧ StatusCode res = 204%Z
  ∧ Http.Body res = Http.Body (w st).
Proof.
  intros Hm Hw h res origin. subst res.
  rewrite ServeHTTP_options by done. unfold handleCorsPreflight.
  fold origin.
  destruct (bool_decide (Get (Header r) "Access-Control-Request-Headers" ≠ ""));
    destruct (bool_decide (origin ≠ ""));
    cbn [w onWriter withHeader HeaderMap wrote Http.Body];
    unfold WriteHeader, ResultHeader, StatusCode;
    cbn [w onWriter withHeader HeaderMap wrote Http.Body];
    rewrite Hw; cbn [wrote HeaderMap Http.Body]; fold h;
    autorewrite with headers; rewrite <- ?app_assoc, ?app_nil_r;
    repeat apply conj; reflexivity.
Qed.

(** ** The error writer *)

Lemma write_header (e : callError) (rec : ResponseRecorder O) :
  wrote rec = None →
  ResultHeader (write e rec) = Set_ "Content-Type" "application/json" (HeaderMap rec).
Proof. intros Hw. unfold write, Write, WriteHeader, withHeader, ResultHeader. simpl. by rewrite Hw. Qed.

Lemma write_status (e : callError) (rec : ResponseRecorder O) :
  wrote rec = None → StatusCode (write e rec) = code e.
Proof. intros Hw. unfold write, Write, WriteHeader, withHeader, StatusCode. simpl. by rewrite Hw. Qed.

Lemma write_body (e : callError) (rec : ResponseRecorder O) :
  Http.Body (write e rec) = (Http.Body rec ++ [ErrorResponse (status e) (message e)])%list.
Proof.
  unfold write, Write, WriteHeader, withHeader. simpl.
  destruct (wrote rec); reflexivity.
Qed.

(** ** The stages of a POST *)

(** Case analysis on every test of the goal and of the hypotheses. *)
Ltac name_checks :=
  repeat match goal with
         | |- context [bool_decide ?P] =>
             let b := fresh "b" in set (b := bool_decide P) in *; clearbody b
         | H : context [bool_decide ?P] |- _ =>
             let b := fresh "b" in set (b := bool_decide P) in *; clearbody b
         end.

Ltac split_checks :=
  repeat match goal with
         | |- context [bool_decide ?P] => destruct (bool_decide P) eqn:?
         | H : context [bool_decide ?P] |- _ => destruct (bool_decide P) eqn:?
         end.



Lemma verified_true c r :
  verified c r = true → ∃ token, validateToken c r = (token, None).
Proof.
  unfold verified. intros H%bool_decide_eq_true.
  destruct (validateToken c r) as [token e]. simpl in H. subst. by eexists.
Qed.

Lemma verified_false c r :
  verified c r = false → ∃ token err, validateToken c r = (token, Some err).
Proof.
  unfold verified. intros H%bool_decide_eq_false.
  destruct (validateToken c r) as [token [e|]]; [by eexists _, _ | done].
Qed.

Lemma handlePost_unverified c r st token err :
  validateToken c r = (token, Some err) →
  handlePost c r st
  = (st, Some (Error Unauthenticated "invalid ID token: %v" [Error_ err])).
Proof. intros H. unfold Callable.handlePost. by rewrite H. Qed.

Lemma handlePost_rejected c r st token :
  validateToken c r = (token, None) →
  negotiated r = false →
  ∃ m, handlePost c r st = (st, Some (Error InvalidArgument m [])).
Proof.
  intros Hv Hn. unfold Callable.handlePost. rewrite Hv. unfold negotiated in Hn.
  destruct (ParseMediaType (Get (Header r) "Content-Type")) as [[mt mp] err].
  cbv zeta in *. name_checks.
  destruct b; [by eexists |].
  destruct b0; [by eexists |].
  destruct b1; [by eexists |].
  destruct b2, b3, b4; simpl in Hn; try discriminate Hn. by eexists.
Qed.

Lemma handlePost_negotiated c r st token :
  validateToken c r = (token, None) →
  negotiated r = true →
  handlePost c r st =
    let st1 := onWriter (withHeader (actualResponseHeaders (Get (Header r) "Origin"))) st in
    let d := Decode (UnmarshalJSON (request c)) (Body r) (target st) in
    let st2 := setTarget (fst d) st1 in
    match snd d with
    | Some e => (st2, Some (Error InvalidArgument "failed to decode payload: %v" [e]))
    | None =>
        match Handle (request c) (fst d) (Ctx r) (CallContext token r) with
        | (_, Some err) =>
            (logError (loggerOf c r) err "callable returned error" st2, Some err)
        | (result, None) =>
            let st3 :=
              onWriter (withHeader (Add "Content-Type" "application/json; charset=utf-8")) st2 in
            match Marshal (request c) result with
            | None => (onWriter (Write (DataResponse result)) st3, None)
            | Some err => (logError (loggerOf c r) err "failed to write response" st3, None)
            end
        end
    end.
Proof.
  intros Hv Hn. unfold Callable.handlePost. rewrite Hv. unfold negotiated in Hn.
  destruct (ParseMediaType (Get (Header r) "Content-Type")) as [[mt mp] err].
  unfold actualResponseHeaders, CallContext, loggerOf.
  cbv zeta in *. name_checks.
  destruct b; [discriminate Hn |].
  destruct b0; [discriminate Hn |].
  destruct b1; [discriminate Hn |].
  assert (Hcs : b2 && b3 && b4 = false) by (by destruct b2, b3, b4).
  rewrite Hcs. clear Hn Hcs.
  destruct b5; destruct (Decode _ _ _) as [t' [e|]]; reflexivity.
Qed.

(** ** CORS headers of a POST *)

Lemma write_values (e : callError) (rec : ResponseRecorder O) (key : string) :
  wrote rec = None → key ≠ "Content-Type" →
  Values (ResultHeader (write e rec)) key = Values (HeaderMap rec) key.
Proof.
  intros Hw Hkey. rewrite write_header by done. by apply Values_Set_ne.
Qed.

Lemma Write_header (x : written O) (rec : ResponseRecorder O) :
  wrote rec = None → ResultHeader (Write x rec) = HeaderMap rec.
Proof. intros Hw. by rewrite Write_fresh. Qed.

Lemma Values_actualResponseHeaders_Vary (origin : string) (h : Http.Header) :
  Values (actualResponseHeaders origin h) "Vary" = (Values h "Vary" ++ ["Origin"])%list.
Proof.
  unfold actualResponseHeaders. destruct (bool_decide (origin ≠ ""));
    autorewrite with headers; reflexivity.
Qed.

Lemma Values_actualResponseHeaders_Origin (origin : string) (h : Http.Header) :
  Values (actualResponseHeaders origin h) "Access-Control-Allow-Origin"
  = (Values h "Access-Control-Allow-Origin"
     ++ if bool_decide (origin ≠ "") then [origin] else [])%list.
Proof.
  unfold actualResponseHeaders. destruct (bool_decide (origin ≠ ""));
    autorewrite with headers; by rewrite ?app_nil_r.
Qed.

(** The headers of the answer to a POST, the content type apart: those
    the writer had, with the CORS headers when verification and
    negotiation have passed. *)
Lemma post_values c r st (key : string) :
  Method r = MethodPost →
  wrote (w st) = None →
  key ≠ "Content-Type" →
  Values (ResultHeader (w (ServeHTTP c r st))) key
  = Values ((if verified c r && negotiated r
             then actualResponseHeaders (Get (Header r) "Origin")
             else id) (HeaderMap (w st))) key.
Proof.
  intros Hm Hw Hkey. rewrite ServeHTTP_post by done.
  destruct (verified c r) eqn:Hv.
  - apply verified_true in Hv as [token Hv].
    destruct (negotiated r) eqn:Hn; cbn [andb].
    + rewrite (handlePost_negotiated _ _ _ _ Hv Hn). cbv zeta.
      destruct (Decode _ _ _) as [t' [e|]]; cbn [fst snd].
      { cbn [w onWriter setTarget]. by rewrite write_values. }
      destruct (Handle _ _ _ _) as [result [err|]].
      { cbn [w onWriter setTarget logError]. by rewrite write_values. }
      destruct (Marshal _ _) as [err|].
      * cbn [w onWriter setTarget logError withHeader].
        unfold ResultHeader. cbn [wrote HeaderMap withHeader]. rewrite Hw.
        by rewrite Values_Add_ne.
      * cbn [w onWriter setTarget]. rewrite Write_header by exact Hw.
        cbn [withHeader HeaderMap]. by rewrite Values_Add_ne.
    + destruct (handlePost_rejected c r st token Hv Hn) as [m ->].
      cbn [w onWriter]. by rewrite write_values.
  - apply verified_false in Hv as (token & err & Hv).
    rewrite (handlePost_unverified _ _ _ _ _ Hv).
    cbn [w onWriter andb]. by rewrite write_values.
Qed.

(** C1, as the code has it.  The answer to a POST carries the CORS
    headers ([Vary: Origin], and [Access-Control-Allow-Origin] with the
    first value of [Origin] when that is not empty) exactly when identity
    verification passes (or is not configured) and content negotiation
    passes too: they are added after the content type has been accepted,
    so neither a failed verification nor a failed negotiation shows them. *)
Theorem post_cors_headers c r st :
  Method r = MethodPost →
  wrote (w st) = None →
  let h := HeaderMap (w st) in
  let res := w (ServeHTTP c r st) in
  let origin := Get (Header r) "Origin" in
  Values (ResultHeader res) "Vary"
    = (Values h "Vary"
       ++ if verified c r && negotiated r then ["Origin"] else [])%list
  ∧ Values (ResultHeader res) "Access-Control-Allow-Origin"
    = (Values h "Access-Control-Allow-Origin"
       ++ if verified c r && negotiated r && bool_decide (origin ≠ "")
          then [origin] else [])%list.
Proof.
  intros Hm Hw h res origin. subst res h origin.
  rewrite !post_values by (done || discriminate).
  destruct (verified c r && negotiated r); cbn [andb id].
  - by rewrite Values_actualResponseHeaders_Vary, Values_actualResponseHeaders_Origin.
  - by rewrite !app_nil_r.
Qed.

(** ** Content negotiation *)


(** ** Identity verification *)

(** C3, as the code has it.  With a verifier configured and required,
    every failure of the verification is UNAUTHENTICATED (401) and its
    message starts with [invalid ID token: ], which [handlePost] puts
    before the cause: [missing Authorization header] when the header has
    no field, [unsupported Authorization header] when its fields are not
    [Bearer] and one token, and the message of the verifier's error
    when the verifier fails. *)
Theorem unauthenticated_messages c r st client :
  authClient c = Some client →
  authRequired c = true →
  let parts := Fields (Get (Header r) "Authorization") in
  let fail m :=
    handlePost c r st = (st, Some (CallError (mkCallError "UNAUTHENTICATED" 401 m))) in
  (parts = [] → fail "invalid ID token: missing Authorization header")
  ∧ (parts ≠ [] → (∀ tok, parts ≠ ["Bearer"; tok]) →
     fail "invalid ID token: unsupported Authorization header")
  ∧ (∀ tok token err,
       parts = ["Bearer"; tok] →
       VerifyIDTokenAndCheckRevoked client (Ctx r) tok = (token, Some err) →
       fail ("invalid ID token: " +:+ Error_ err)).
Proof.
  intros Hc Hreq parts fail. subst fail.
  assert (Hfail : ∀ token err,
    validateToken c r = (token, Some err) →
    handlePost c r st
    = (st, Some (CallError (mkCallError "UNAUTHENTICATED" 401
                              ("invalid ID token: " +:+ Error_ err))))).
  { intros token err Hv. rewrite (handlePost_unverified _ _ _ _ _ Hv).
    by rewrite Error_Unauthenticated, Sprintf_invalid_token. }
  repeat split.
  - intros Hp. apply (Hfail None (ErrorString "missing Authorization header")).
    unfold validateToken. rewrite Hc, Hreq. fold parts. by rewrite Hp.
  - intros Hne Hnb. apply (Hfail None (ErrorString "unsupported Authorization header")).
    unfold validateToken. rewrite Hc, Hreq. fold parts. clearbody parts.
    destruct parts as [|p0 [|p1 [|p2 parts]]]; [done | reflexivity | | reflexivity].
    cbn [length andb]. rewrite (bool_decide_eq_false_2 (2 = 0)%nat) by lia.
    rewrite (bool_decide_eq_false_2 (2 ≠ 2)%nat) by lia.
    cbn [andb orb]. case_bool_decide as Hb; [reflexivity |].
    exfalso. apply (Hnb p1).
    change ([p0; p1] !! 0%nat) with (Some p0) in Hb. by injection Hb as ->.
  - intros tok token err Hp Hverify. apply (Hfail None err).
    unfold validateToken. rewrite Hc, Hreq. fold parts. rewrite Hp.
    change (default "" (["Bearer"; tok] !! 1%nat)) with tok.
    rewrite Hverify. reflexivity.
Qed.

(** ** Decoding the payload *)

(** Members that do not name the field [data] leave the decoder's state
    as it is. *)
Lemma fold_member_skip (UnmarshalJSON : json → I → I * option string)
    (members : list (string * json)) (acc : I * bool * option string) :
  Forall (λ m, isData (fst m) = false) members →
  fold_left (member UnmarshalJSON) members acc = acc.
Proof.
  revert acc. induction members as [|m members IH]; intros acc Hall; [done |].
  apply Forall_cons in Hall as [Hm Hall]. simpl. rewrite <- (IH acc Hall) at 2.
  f_equal. unfold member. destruct acc as [[t b] e]. by rewrite Hm.
Qed.

(** C5, as the code has it.  After verification and negotiation have
    passed, [handlePost] fails with INVALID_ARGUMENT (400) and the message
    [failed to decode payload: ] followed by the decoder's error exactly
    when the decoder reports an error; otherwise its outcome is that of
    the handler, run on the decoded request object.  The decoder reports
    an error for a body that is not JSON and for a top-level value that
    is neither an object nor [null]; it reports none for [null] and for
    an object without a member [data], which leave the request object as
    it was; for an object with the single member [data] that is not
    [null], the outcome is that of unmarshalling the member into the
    request object. *)
Theorem decode_failure c r st token :
  validateToken c r = (token, None) →
  negotiated r = true →
  let d := Decode (UnmarshalJSON (request c)) (Body r) (target st) in
  (∀ e, snd d = Some e →
     snd (handlePost c r st)
     = Some (CallError (mkCallError "INVALID_ARGUMENT" 400
                          ("failed to decode payload: " +:+ e))))
  ∧ (snd d = None →
     snd (handlePost c r st)
     = snd (Handle (request c) (fst d) (Ctx r) (CallContext token r)))
  ∧ (∀ e, Body r = Invalid e → d = (target st, Some e))
  ∧ (∀ v, Body r = Value v → v ≠ Null → (∀ members, v ≠ Object members) →
     fst d = target st ∧ is_Some (snd d))
  ∧ (Body r = Value Null → d = (target st, None))
  ∧ (∀ members,
       Body r = Value (Object members) →
       Forall (λ m, isData (fst m) = false) members →
       d = (target st, None))
  ∧ (∀ key v,
       Body r = Value (Object [(key, v)]) → isData key = true → v ≠ Null →
       d = UnmarshalJSON (request c) v (target st)).
Proof.
  intros Hv Hn d. rewrite (handlePost_negotiated _ _ _ _ Hv Hn). cbv zeta.
  fold d. repeat apply conj.
  - intros e ->. cbn [snd]. by rewrite Error_InvalidArgument, Sprintf_failed_to_decode.
  - intros ->. destruct (Handle _ _ _ _) as [result [err|]]; [done |].
    by destruct (Marshal _ _).
  - intros e Hb. subst d. by rewrite Hb.
  - intros v Hb Hnull Hobj. subst d. rewrite Hb. unfold Decode.
    destruct v as [| | | | |members]; cbn [fst snd]; try done.
    by edestruct Hobj.
  - intros Hb. subst d. by rewrite Hb.
  - intros members Hb Hall. subst d. rewrite Hb. unfold Decode.
    by rewrite fold_member_skip.
  - intros key v Hb Hkey Hnull. subst d. rewrite Hb. unfold Decode.
    cbn [fold_left member fst snd]. rewrite Hkey.
    destruct (UnmarshalJSON (request c) v (target st)) as [t' e] eqn:Hu.
    destruct v; try done; by rewrite Hu.
Qed.

(** ** Failures of the handler *)


Lemma As_made_by_Error (err : error) (ce : callError) :
  made_by_Error err → As err = Some ce → (400 ≤ code ce ≤ 504)%Z.
Proof.
  induction err as [e | | | text | text inner IH]; simpl; try done.
  intros (k & format & a & ->) [= <-]. apply newError_code_range.
Qed.


End Dispatching.

End CallableFacts.

(** * The requests of the tests, and a few more *)

Module Examples.
Import Strings Response Http Json Errors Callable Stages Test CallableFacts.

#[local] Abbreviation answer opts r := (w (serve opts r)).
#[local] Abbreviation start := (NewState (O := option testResponse) {| Who := "" |}).

(** ** CORS headers *)

(** C1 fails on a POST that has an [Origin] but no [Content-Type]: no
    verifier is configured, the answer is 400 and it carries neither
    [Vary] nor [Access-Control-Allow-Origin]. *)
Lemma cors_absent_when_negotiation_fails :
  let r := NewRequest "POST" [("Origin", "http://localhost")] (dataWho "World") in
  validateToken (New testHandler []) r = (None, None)
  ∧ StatusCode (answer [] r) = 400%Z
  ∧ Http.Body (answer [] r) = [ErrorResponse "INVALID_ARGUMENT" "missing content type"]
  ∧ Values (ResultHeader (answer [] r)) "Vary" = []
  ∧ Values (ResultHeader (answer [] r)) "Access-Control-Allow-Origin" = [].
Proof. by vm_compute. Qed.

Lemma post_cors_headers_witness :
  let r := NewRequest "POST"
             [("Content-Type", "application/json"); ("Origin", "http://localhost")]
             (dataWho "World") in
  Method r = MethodPost
  ∧ wrote (w start) = None
  ∧ Values (ResultHeader (answer [] r)) "Vary" = ["Origin"]
  ∧ Values (ResultHeader (answer [] r)) "Access-Control-Allow-Origin" = ["http://localhost"].
Proof.
  intros r. split; [reflexivity |]. split; [reflexivity |].
  exact (post_cors_headers ParseMediaType (New testHandler []) r start eq_refl eq_refl).
Defined.

(** ** The preflight *)

(** C9 fails on an OPTIONS request whose [Origin] header is present and
    empty: the answer has no [Access-Control-Allow-Origin]. *)
Lemma preflight_empty_origin_not_echoed :
  let r := NewRequest "OPTIONS" [("Origin", "")] (Invalid "EOF") in
  Header r !! "Origin" = Some [""]
  ∧ StatusCode (answer [] r) = 204%Z
  ∧ ResultHeader (answer [] r) !! "Access-Control-Allow-Origin" = None.
Proof. by vm_compute. Qed.

(** [TestCallable_CORS_Origin] *)
Lemma preflight_response_witness :
  let r := NewRequest "OPTIONS" [("Origin", "http://localhost")] (Invalid "EOF") in
  Method r = MethodOptions
  ∧ wrote (w start) = None
  ∧ Values (ResultHeader (answer [] r)) "Vary"
    = ["Origin"; "Access-Control-Request-Headers"]
  ∧ Values (ResultHeader (answer [] r)) "Access-Control-Allow-Methods" = ["POST"]
  ∧ Values (ResultHeader (answer [] r)) "Access-Control-Allow-Headers" = []
  ∧ Values (ResultHeader (answer [] r)) "Access-Control-Allow-Origin" = ["http://localhost"]
  ∧ StatusCode (answer [] r) = 204%Z
  ∧ Http.Body (answer [] r) = [].
Proof.
  intros r. split; [reflexivity |]. split; [reflexivity |].
  exact (preflight_response ParseMediaType (New testHandler []) r start eq_refl eq_refl).
Defined.

(** ** Identity verification *)

(** C2 on the code: with a verifier that is configured and not required,
    a POST without an [Authorization] header is answered 401; the handler
    is not run and the request object stays as it was. *)
Theorem optional_auth_absent_header_rejected :
  let opts := [authOption (Some acceptAll) false] in
  let r := NewRequest "POST" [("Content-Type", "application/json")] (dataWho "World") in
  WithAuth (Some acceptAll) false = Returns (authOption (Some acceptAll) false)
  ∧ authRequired (New testHandler opts) = false
  ∧ Header r !! "Authorization" = None
  ∧ validateToken (New testHandler opts) r
    = (None, Some (ErrorString "unsupported Authorization header"))
  ∧ StatusCode (answer opts r) = 401%Z
  ∧ Http.Body (answer opts r)
    = [ErrorResponse "UNAUTHENTICATED" "invalid ID token: unsupported Authorization header"]
  ∧ target (serve opts r) = {| Who := "" |}.
Proof. by vm_compute. Qed.

(** C3 fails on a POST without an [Authorization] header to a callable
    whose verifier is required: the message is not
    [missing Authorization header] alone. *)
Lemma missing_header_message_is_wrapped :
  let opts := [authOption (Some acceptAll) true] in
  let r := NewRequest "POST" [("Content-Type", "application/json")] (dataWho "World") in
  Http.Body (answer opts r)
  = [ErrorResponse "UNAUTHENTICATED" "invalid ID token: missing Authorization header"]
  ∧ Http.Body (answer opts r)
    ≠ [ErrorResponse "UNAUTHENTICATED" "missing Authorization header"].
Proof. by vm_compute. Qed.

Lemma unauthenticated_messages_witness :
  let c := New testHandler [authOption (Some rejectAll) true] in
  let r := NewRequest "POST"
             [("Content-Type", "application/json"); ("Authorization", "Bearer abc")]
             (dataWho "World") in
  authClient c = Some rejectAll
  ∧ authRequired c = true
  ∧ Fields (Get (Header r) "Authorization") = ["Bearer"; "abc"]
  ∧ handlePost ParseMediaType c r start
    = (start, Some (CallError (mkCallError "UNAUTHENTICATED" 401
                                 "invalid ID token: ID token has expired"))).
Proof.
  intros c r. split; [reflexivity |]. split; [reflexivity |]. split; [reflexivity |].
  exact (proj2 (proj2 (unauthenticated_messages ParseMediaType c r start rejectAll
                         eq_refl eq_refl))
           "abc" None (ErrorString "ID token has expired") eq_refl eq_refl).
Defined.

(** The fields of the header are separated by Unicode white space too:
    a no-break space after [Bearer] still hands the token to the
    verifier. *)
Lemma bearer_after_no_break_space :
  let c := New testHandler [authOption (Some acceptAll) true] in
  let r := NewRequest "POST"
             [("Content-Type", "application/json");
              ("Authorization", "Bearer" +:+ nbsp +:+ "abc")]
             (dataWho "World") in
  Fields (Get (Header r) "Authorization") = ["Bearer"; "abc"]
  ∧ validateToken c r = (Some {| TokenUID := "uid-abc" |}, None)
  ∧ Fields ("Bearer a" +:+ nbsp +:+ "b") = ["Bearer"; "a"; "b"].
Proof. by vm_compute. Qed.

(** ** The content type of an error answer *)

(** C4 on the code: the request of [TestCallable_Error] is answered 404
    through the dispatch, and the content type of the answer is
    [application/json] without a charset. *)
Theorem dispatch_error_content_type :
  let r := NewRequest "POST" [("Content-Type", "application/json")]
             (Value (Object [("data", Object [])])) in
  StatusCode (answer [] r) = 404%Z
  ∧ Http.Body (answer [] r) = [ErrorResponse "NOT_FOUND" "nobody to greet"]
  ∧ Values (ResultHeader (answer [] r)) "Content-Type" = ["application/json"]
  ∧ Get (ResultHeader (answer [] r)) "Content-Type" ≠ "application/json; charset=utf-8"
  ∧ Get (ResultHeader (write (newError Unauthenticated "test message with %s" ["param"])
                          (NewRecorder (O := option testResponse))))
        "Content-Type" = "application/json".
Proof. by vm_compute. Qed.

(** ** Content negotiation *)



(** ** Decoding *)

(** C5 fails on the body [{}], an object without the field [data]: the
    decoder reports no error, the handler runs on the untouched request
    object, and the answer is the handler's 404 and not a 400. *)
Lemma body_without_data_accepted :
  let r := NewRequest "POST" [("Content-Type", "application/json")] (Value (Object [])) in
  Decode UnmarshalJSON (Body r) {| Who := "" |} = ({| Who := "" |}, None)
  ∧ snd (handlePost ParseMediaType (New testHandler []) r start)
    = Some (Error NotFound "nobody to greet" [])
  ∧ StatusCode (answer [] r) = 404%Z
  ∧ Http.Body (answer [] r) = [ErrorResponse "NOT_FOUND" "nobody to greet"].
Proof. by vm_compute. Qed.

(** A body that is a JSON array. *)
Lemma decode_failure_witness :
  let c := New testHandler [] in
  let r := NewRequest "POST" [("Content-Type", "application/json")] (Value (Array [])) in
  validateToken c r = (None, None)
  ∧ negotiated ParseMediaType r = true
  ∧ snd (handlePost ParseMediaType c r start)
    = Some (CallError (mkCallError "INVALID_ARGUMENT" 400
              ("failed to decode payload: json: cannot unmarshal array into Go value of type "
               +:+ payloadType))).
Proof.
  intros c r. split; [reflexivity |]. split; [reflexivity |].
  exact (proj1 (decode_failure ParseMediaType c r start None eq_refl eq_refl) _ eq_refl).
Defined.

(** ** Failures of the handler *)


End Examples.

(** * Further properties of the dispatch *)

Module DispatchFacts.
Import Strings Response Http Json Errors Callable Stages ResponseFacts HttpFacts
  CallableFacts.

Section Routing.
Context {I O : Type}.
Variable ParseMediaType : string → string * gmap string string * option error.
Implicit Types (c : Callable (I := I) (O := O)) (r : HttpRequest)
  (st : State (I := I) (O := O)).

#[local] Abbreviation handlePost := (handlePost ParseMediaType).
#[local] Abbreviation ServeHTTP := (ServeHTTP ParseMediaType).
#[local] Abbreviation negotiated := (negotiated ParseMediaType).

(** Any method other than OPTIONS and POST is answered 405 by
    [http.Error] with an empty message: the answer is a plain text line
    holding only the line feed, the handler is not run, and the request
    object and the log stay as they were. *)
Theorem method_not_allowed c r st :
  Method r ≠ MethodOptions →
  Method r ≠ MethodPost →
  wrote (w st) = None →
  let st' := ServeHTTP c r st in
  StatusCode (w st') = 405%Z
  ∧ Http.Body (w st') = (Http.Body (w st) ++ [Text (String (ascii_of_nat 10) "")])%list
  ∧ Values (ResultHeader (w st')) "Content-Type" = ["text/plain; charset=utf-8"]
  ∧ target st' = target st
  ∧ log st' = log st.
Proof.
  intros Ho Hp Hw st'. subst st'. unfold Callable.ServeHTTP.
  rewrite !bool_decide_eq_false_2 by done.
  unfold Http.Error. cbn [onWriter w target log].
  unfold Write, WriteHeader, StatusCode, ResultHeader.
  cbn [wrote withHeader HeaderMap Http.Body]. rewrite Hw.
  cbn [wrote withHeader HeaderMap Http.Body].
  by autorewrite with headers.
Qed.

(** The answer to a preflight does not depend on the callable: neither
    the verifier, nor the required flag, nor the logger, nor the handler
    plays a part, and the request object and the log are not touched. *)
Theorem preflight_ignores_configuration c c' r st :
  Method r = MethodOptions →
  ServeHTTP c r st = ServeHTTP c' r st
  ∧ target (ServeHTTP c r st) = target st
  ∧ log (ServeHTTP c r st) = log st.
Proof.
  intros Hm. rewrite !ServeHTTP_options by done. split; [reflexivity |].
  unfold handleCorsPreflight.
  destruct (bool_decide _), (bool_decide _); by cbn [onWriter target log].
Qed.

Lemma Get_insert_ne (key key' : string) (values : list string) (h : Http.Header) :
  key ≠ key' → Get (<[key := values]> h) key' = Get h key'.
Proof. intros Hne. unfold Get, Values. by rewrite lookup_insert_ne. Qed.

(** Without a verifier the [Authorization] header has no influence on
    the answer: whatever values the header is given, for every method,
    the writer, the request object and the log end up the same. *)
Theorem authorization_ignored_without_verifier c r st (values : list string) :
  authClient c = None →
  let r' := {| Method := Method r;
               Header := <["Authorization" := values]> (Header r);
               Body := Body r;
               Ctx := Ctx r |} in
  ServeHTTP c r' st = ServeHTTP c r st.
Proof.
  intros Hc r'. subst r'.
  unfold Callable.ServeHTTP, handleCorsPreflight, Callable.handlePost, validateToken.
  cbn [Method Header Body Ctx]. rewrite Hc.
  rewrite !Get_insert_ne by discriminate. reflexivity.
Qed.

(** With a verifier, a header whose fields are [Bearer] and a token hands
    that token, and nothing else of the header, to the verifier; the
    outcome is the verifier's, with the token dropped when it reports an
    error. *)
Theorem validateToken_bearer c r client tok :
  authClient c = Some client →
  Fields (Get (Header r) "Authorization") = ["Bearer"; tok] →
  validateToken c r
  = match VerifyIDTokenAndCheckRevoked client (Ctx r) tok with
    | (_, Some err) => (None, Some err)
    | (token, None) => (token, None)
    end.
Proof.
  intros Hc Hp. unfold validateToken. rewrite Hc, Hp.
  cbn [length andb]. rewrite (bool_decide_eq_false_2 (2 = 0)%nat) by lia.
  rewrite (bool_decide_eq_false_2 (2 ≠ 2)%nat) by lia.
  rewrite (bool_decide_eq_false_2 (["Bearer"; tok] !! 0%nat ≠ Some "Bearer"))
    by (intros H; by apply H).
  reflexivity.
Qed.

(** As the code stands, the required flag never decides whether a
    request passes verification: two callables that differ in the flag
    only accept the same requests with the same token.  The flag plays
    no part at all when no verifier is configured or when the header has
    a field; for a header without fields both settings reject, the
    required one with [missing Authorization header] and the other with
    [unsupported Authorization header]. *)
Theorem authRequired_changes_message_only c r (required : bool) :
  let c' := {| request := request c; authClient := authClient c;
               authRequired := required; logger := logger c |} in
  let parts := Fields (Get (Header r) "Authorization") in
  fst (validateToken c' r) = fst (validateToken c r)
  ∧ (snd (validateToken c' r) = None ↔ snd (validateToken c r) = None)
  ∧ (authClient c = None ∨ parts ≠ [] → validateToken c' r = validateToken c r)
  ∧ (∀ client, authClient c = Some client → parts = [] →
       validateToken c' r
       = (None, Some (ErrorString (if required then "missing Authorization header"
                                   else "unsupported Authorization header")))).
Proof.
  intros c' parts. subst parts. unfold validateToken. cbn [authClient authRequired c'].
  destruct (authClient c) as [client|].
  2: { split; [done |]. split; [done |]. split; [done |]. intros client H. discriminate H. }
  destruct (Fields (Get (Header r) "Authorization")) as [|p0 [|p1 [|p2 parts]]].
  - rewrite (bool_decide_eq_true_2 (length (@nil string) = 0%nat)) by done.
    rewrite (bool_decide_eq_true_2 (length (@nil string) ≠ 2%nat)) by (cbn; lia).
    split; [| split; [| split]].
    + destruct required, (authRequired c); cbn [andb orb fst snd]; reflexivity.
    + destruct required, (authRequired c); cbn [andb orb fst snd];
        split; intros H; discriminate H.
    + intros [H | H]; [discriminate H | done].
    + intros client' _ _. destruct required; cbn [andb orb]; reflexivity.
  - rewrite (bool_decide_eq_false_2 (length [p0] = 0%nat)) by (cbn; lia).
    rewrite (bool_decide_eq_true_2 (length [p0] ≠ 2%nat)) by (cbn; lia).
    split; [reflexivity |]. split; [reflexivity |]. split; [reflexivity |].
    intros client' _ H. discriminate H.
  - rewrite (bool_decide_eq_false_2 (length [p0; p1] = 0%nat)) by (cbn; lia).
    split; [reflexivity |]. split; [reflexivity |]. split; [reflexivity |].
    intros client' _ H. discriminate H.
  - rewrite (bool_decide_eq_false_2 (length (p0 :: p1 :: p2 :: parts) = 0%nat))
      by (cbn; lia).
    rewrite (bool_decide_eq_true_2 (length (p0 :: p1 :: p2 :: parts) ≠ 2%nat))
      by (cbn; lia).
    split; [reflexivity |]. split; [reflexivity |]. split; [reflexivity |].
    intros client' _ H. discriminate H.
Qed.

(** ** The answer to a POST *)

(** When [handlePost] returns an error nothing has been sent: the writer
    has the status and the body it had before. *)
Lemma handlePost_failure_uncommitted c r st st' err :
  handlePost c r st = (st', Some err) →
  wrote (w st') = wrote (w st) ∧ Http.Body (w st') = Http.Body (w st).
Proof.
  destruct (verified c r) eqn:Hv.
  - apply verified_true in Hv as [token Hv].
    destruct (negotiated r) eqn:Hn.
    + rewrite (handlePost_negotiated _ _ _ _ _ Hv Hn). cbv zeta.
      destruct (Decode _ _ _) as [t' [e|]]; cbn [fst snd].
      { by intros [= <- _]. }
      destruct (Handle _ _ _ _) as [result [err'|]].
      { by intros [= <- _]. }
      by destruct (Marshal _ _).
    + destruct (handlePost_rejected ParseMediaType c r st token Hv Hn) as [m ->].
      by intros [= <- _].
  - apply verified_false in Hv as (token & err' & Hv).
    rewrite (handlePost_unverified _ _ _ _ _ _ Hv). by intros [= <- _].
Qed.

(** Every POST that fails is answered with one JSON error envelope: the
    status is the code of the error that [ServeHTTP] makes of the
    failure, the body gains that error's status and message and nothing
    else, and the content type is [application/json] alone, whatever
    content types the writer held before. *)
Theorem post_failure_answer c r st st' err :
  Method r = MethodPost →
  wrote (w st) = None →
  handlePost c r st = (st', Some err) →
  let res := w (ServeHTTP c r st) in
  StatusCode res = code (classify err)
  ∧ Http.Body res
    = (Http.Body (w st)
       ++ [ErrorResponse (status (classify err)) (message (classify err))])%list
  ∧ Values (ResultHeader res) "Content-Type" = ["application/json"].
Proof.
  intros Hm Hw Hpost res. subst res.
  destruct (handlePost_failure_uncommitted _ _ _ _ _ Hpost) as [Hw' Hb'].
  rewrite Hw in Hw'.
  rewrite ServeHTTP_post, Hpost by done. cbn [w onWriter].
  rewrite write_status, write_body, write_header, Hb' by done.
  by rewrite Values_Set_eq.
Qed.

Lemma handlePost_made_by_Error c r st st' err :
  handler_made_by_Error c →
  handlePost c r st = (st', Some err) → made_by_Error err.
Proof.
  intros Hh.
  destruct (verified c r) eqn:Hv.
  - apply verified_true in Hv as [token Hv].
    destruct (negotiated r) eqn:Hn.
    + rewrite (handlePost_negotiated _ _ _ _ _ Hv Hn). cbv zeta.
      destruct (Decode _ _ _) as [t' [e|]]; cbn [fst snd].
      { intros [= _ <-]. by eexists _, _, _. }
      destruct (Handle _ _ _ _) as [result [err'|]] eqn:Hhandle.
      { intros [= _ <-]. by eapply Hh. }
      by destruct (Marshal _ _).
    + destruct (handlePost_rejected ParseMediaType c r st token Hv Hn) as [m ->].
      intros [= _ <-]. by eexists _, _, _.
  - apply verified_false in Hv as (token & err' & Hv).
    rewrite (handlePost_unverified _ _ _ _ _ _ Hv).
    intros [= _ <-]. by eexists _, _, _.
Qed.

(** No failing POST is answered with a status outside 400..504, whether
    the failure comes from verification, negotiation, decoding or the
    handler. *)
Theorem post_failure_status_range c r st st' err :
  Method r = MethodPost →
  wrote (w st) = None →
  handler_made_by_Error c →
  handlePost c r st = (st', Some err) →
  (400 ≤ StatusCode (w (ServeHTTP c r st)) ≤ 504)%Z.
Proof.
  intros Hm Hw Hh Hpost.
  destruct (handlePost_failure_uncommitted _ _ _ _ _ Hpost) as [Hw' _].
  rewrite Hw in Hw'.
  rewrite ServeHTTP_post, Hpost by done. cbn [w onWriter].
  rewrite write_status by done.
  pose proof (handlePost_made_by_Error _ _ _ _ _ Hh Hpost) as Hmade.
  unfold classify. destruct (As err) as [ce|] eqn:Has.
  - by eapply As_made_by_Error.
  - destruct (IsCanceled err), (IsDeadlineExceeded err); apply newError_code_range.
Qed.

(** A POST that passes every stage and whose result marshals is
    answered 200 with the result in a data envelope; the content type
    [application/json; charset=utf-8] is added after those the writer
    held, the handler has received the instance token of the request and
    the UID of the verified token, and nothing is logged. *)
Theorem post_success c r st token result :
  Method r = MethodPost →
  wrote (w st) = None →
  validateToken c r = (token, None) →
  negotiated r = true →
  let d := Decode (UnmarshalJSON (request c)) (Body r) (target st) in
  snd d = None →
  Handle (request c) (fst d) (Ctx r)
    {| UID := match token with Some t => TokenUID t | None => "" end;
       IID := Get (Header r) "Firebase-Instance-ID-Token" |} = (result, None) →
  Marshal (request c) result = None →
  let st' := ServeHTTP c r st in
  StatusCode (w st') = 200%Z
  ∧ Http.Body (w st') = (Http.Body (w st) ++ [DataResponse result])%list
  ∧ Values (ResultHeader (w st')) "Content-Type"
    = (Values (HeaderMap (w st)) "Content-Type"
       ++ ["application/json; charset=utf-8"])%list
  ∧ log st' = log st.
Proof.
  intros Hm Hw Hv Hn d Hd Hh Hmarshal st'. subst st'.
  rewrite ServeHTTP_post by done.
  rewrite (handlePost_negotiated _ _ _ _ _ Hv Hn). cbv zeta. fold d.
  unfold CallContext. rewrite Hd, Hh, Hmarshal.
  cbn [w onWriter setTarget log]. rewrite Write_fresh by exact Hw.
  unfold StatusCode, ResultHeader. cbn [wrote withHeader HeaderMap Http.Body].
  rewrite Values_Add_eq.
  unfold actualResponseHeaders. destruct (bool_decide _); by autorewrite with headers.
Qed.

(** When the result does not marshal, nothing is written: the handler's
    work is lost without an error envelope, the status stays the default
    200 with an empty addition to the body, and the only trace is one
    log entry [failed to write response]. *)
Theorem post_marshal_failure c r st token result err :
  Method r = MethodPost →
  wrote (w st) = None →
  validateToken c r = (token, None) →
  negotiated r = true →
  let d := Decode (UnmarshalJSON (request c)) (Body r) (target st) in
  snd d = None →
  Handle (request c) (fst d) (Ctx r) (CallContext token r) = (result, None) →
  Marshal (request c) result = Some err →
  let st' := ServeHTTP c r st in
  snd (handlePost c r st) = None
  ∧ StatusCode (w st') = 200%Z
  ∧ Http.Body (w st') = Http.Body (w st)
  ∧ log st'
    = (log st ++ [{| sink := loggerOf c r; logged := err;
                     msg := "failed to write response" |}])%list.
Proof.
  intros Hm Hw Hv Hn d Hd Hh Hmarshal st'. subst st'.
  rewrite ServeHTTP_post by done.
  rewrite (handlePost_negotiated _ _ _ _ _ Hv Hn). cbv zeta. fold d.
  rewrite Hd, Hh, Hmarshal.
  cbn [snd w onWriter setTarget logError log].
  unfold StatusCode. cbn [wrote Http.Body withHeader]. by rewrite Hw.
Qed.

(** ** The log and the request object *)

(** Every error of the handler is logged once, typed or not, under
    [callable returned error], to the logger of the callable or else to
    that of the request's context. *)
Theorem handler_error_logged c r st token result err :
  Method r = MethodPost →
  validateToken c r = (token, None) →
  negotiated r = true →
  let d := Decode (UnmarshalJSON (request c)) (Body r) (target st) in
  snd d = None →
  Handle (request c) (fst d) (Ctx r) (CallContext token r) = (result, Some err) →
  log (ServeHTTP c r st)
  = (log st ++ [{| sink := match logger c with
                           | Some l => Some l
                           | None => ctxLogger (Ctx r)
                           end;
                   logged := err;
                   msg := "callable returned error" |}])%list.
Proof.
  intros Hm Hv Hn d Hd Hh.
  rewrite ServeHTTP_post by done.
  rewrite (handlePost_negotiated _ _ _ _ _ Hv Hn). cbv zeta. fold d.
  rewrite Hd, Hh. reflexivity.
Qed.

(** Failures of verification, of negotiation and of decoding are not
    logged. *)
Theorem protocol_failure_not_logged c r st :
  Method r = MethodPost →
  verified c r = false ∨ negotiated r = false
  ∨ snd (Decode (UnmarshalJSON (request c)) (Body r) (target st)) ≠ None →
  log (ServeHTTP c r st) = log st.
Proof.
  intros Hm Hfail. rewrite ServeHTTP_post by done.
  destruct (verified c r) eqn:Hv.
  - apply verified_true in Hv as [token Hv].
    destruct (negotiated r) eqn:Hn.
    + destruct Hfail as [Hfail | [Hfail | Hfail]]; [done | done |].
      rewrite (handlePost_negotiated _ _ _ _ _ Hv Hn). cbv zeta.
      by destruct (Decode _ _ _) as [t' [e|]].
    + by destruct (handlePost_rejected ParseMediaType c r st token Hv Hn) as [m ->].
  - apply verified_false in Hv as (token & err' & Hv).
    by rewrite (handlePost_unverified _ _ _ _ _ _ Hv).
Qed.

(** The request object is shared by all requests of a callable.  A POST
    that fails verification or negotiation leaves it as it was; a POST
    whose body fails to decode is answered without the handler being
    run, and the request object keeps whatever the decoder had written
    into it before the error. *)
Theorem request_object_after_failure c r st :
  Method r = MethodPost →
  let d := Decode (UnmarshalJSON (request c)) (Body r) (target st) in
  (verified c r = false ∨ negotiated r = false → target (ServeHTTP c r st) = target st)
  ∧ (verified c r = true → negotiated r = true → snd d ≠ None →
     target (ServeHTTP c r st) = fst d ∧ log (ServeHTTP c r st) = log st).
Proof.
  intros Hm d. rewrite !ServeHTTP_post by done. split.
  - intros Hfail. destruct (verified c r) eqn:Hv.
    + apply verified_true in Hv as [token Hv].
      destruct Hfail as [Hfail | Hn]; [done |].
      by destruct (handlePost_rejected ParseMediaType c r st token Hv Hn) as [m ->].
    + apply verified_false in Hv as (token & err' & Hv).
      by rewrite (handlePost_unverified _ _ _ _ _ _ Hv).
  - intros Hv Hn Hd. apply verified_true in Hv as [token Hv].
    rewrite (handlePost_negotiated _ _ _ _ _ Hv Hn). cbv zeta. fold d.
    by destruct (snd d).
Qed.

(** ** Construction *)

Lemma fold_config_request (opts : list Option) c :
  request (fold_left config opts c) = request c.
Proof.
  revert c. induction opts as [|o opts IH]; intros c; [done |].
  cbn [fold_left]. rewrite IH. by destruct o.
Qed.

Lemma fold_config_loggers (opts : list Option) c :
  Forall (λ o, ∃ l, o = loggerOption l) opts →
  authClient (fold_left config opts c) = authClient c
  ∧ authRequired (fold_left config opts c) = authRequired c.
Proof.
  intros Hopts. revert c. induction Hopts as [|o opts [l ->] _ IH]; intros c; [done |].
  cbn [fold_left]. by rewrite !(proj1 (IH _)), !(proj2 (IH _)).
Qed.

Lemma fold_config_logger (opts : list Option) c :
  logger (fold_left config opts c)
  = match last (omap (λ o, match o with
                           | loggerOption l => Some l
                           | authOption _ _ => None
                           end) opts) with
    | Some l => Some l
    | None => logger c
    end.
Proof.
  revert c. induction opts as [|o opts IH]; intros c; [done |].
  cbn [fold_left]. rewrite IH. destruct o as [client required | l]; [done |].
  cbn [omap list_omap]. rewrite last_cons. by destruct (last _).
Qed.

(** [New] starts without verifier, with the flag unset and without
    logger, keeps the handler it is given, and applies the options from
    left to right: without an [authOption] there is no verifier and the
    flag is unset; the client and the flag are those of the last
    [authOption]; the logger is that of the last [loggerOption]. *)
Theorem New_last_auth_option_wins (request : Request (I := I) (O := O)) :
  New request []
  = {| Callable.request := request; authClient := None;
       authRequired := false; logger := None |}
  ∧ (∀ opts, Callable.request (New request opts) = request)
  ∧ (∀ opts,
       Forall (λ o, ∃ l, o = loggerOption l) opts →
       authClient (New request opts) = None ∧ authRequired (New request opts) = false)
  ∧ (∀ before after client required,
       Forall (λ o, ∃ l, o = loggerOption l) after →
       let c := New request (before ++ authOption client required :: after) in
       authClient c = client ∧ authRequired c = required)
  ∧ (∀ opts,
       logger (New request opts)
       = last (omap (λ o, match o with
                          | loggerOption l => Some l
                          | authOption _ _ => None
                          end) opts)).
Proof.
  repeat apply conj.
  - reflexivity.
  - intros opts. unfold New. by rewrite fold_config_request.
  - intros opts Hopts. unfold New.
    by destruct (fold_config_loggers opts
                   {| Callable.request := request; authClient := None;
                      authRequired := false; logger := None |} Hopts) as [-> ->].
  - intros before after client required Hafter c. subst c.
    unfold New. rewrite fold_left_app. cbn [fold_left].
    by destruct (fold_config_loggers after
                   (config (fold_left config before
                              {| Callable.request := request; authClient := None;
                                 authRequired := false; logger := None |})
                           (authOption client required)) Hafter) as [-> ->].
  - intros opts. unfold New. rewrite fold_config_logger. by destruct (last _).
Qed.

End Routing.

End DispatchFacts.

(** * Further properties of the error taxonomy *)

Module TaxonomyFacts.
Import Strings Response Http Errors Callable ResponseFacts HttpFacts CallableFacts.

(** The entries of the table, one case for each. *)
Lemma statuses_entry (k : Z) (s : string) (c : Z) :
  statuses !! k = Some (s, c) →
  (0 ≤ k ≤ 15)%Z ∧ statuses !! k = Some (s, c).
Proof.
  intros H. split; [| exact H].
  destruct (decide (k < 0 ∨ 15 < k)%Z) as [Hout|]; [| lia].
  by rewrite statuses_outside in H.
Qed.

(** Whatever integer is given as the kind, the error has a status and a
    code that stand together in the table, and the code lies between 400
    and 504: no error is ever a success or a redirect. *)
Theorem newError_in_table (k : Response.StatusCode) (format : string) (a : list string) :
  let e := newError k format a in
  (∃ k', (0 ≤ k' ≤ 15)%Z ∧ statuses !! k' = Some (status e, code e))
  ∧ (400 ≤ code e ≤ 504)%Z.
Proof.
  intros e. subst e. split; [| apply newError_code_range].
  unfold newError. destruct (statuses !! k) as [[s c]|] eqn:Hk.
  - exists k. cbn [status code fst snd]. by apply statuses_entry.
  - exists Internal. rewrite statuses_Internal. cbn. split; [unfold Internal; lia | done].
Qed.

(** The status string tells the kind: two kinds of the enumeration with
    the same status string are the same kind, so a client can read the
    HTTP code off the status. *)
Theorem status_identifies_kind (k1 k2 : Response.StatusCode) (format1 format2 : string)
    (a1 a2 : list string) :
  (0 ≤ k1 ≤ 15)%Z → (0 ≤ k2 ≤ 15)%Z →
  status (newError k1 format1 a1) = status (newError k2 format2 a2) →
  k1 = k2 ∧ code (newError k1 format1 a1) = code (newError k2 format2 a2).
Proof.
  intros H1 H2.
  assert (∃ n1, k1 = Z.of_nat n1 ∧ (n1 < 16)%nat) as (n1 & -> & Hn1)
    by (exists (Z.to_nat k1); lia).
  assert (∃ n2, k2 = Z.of_nat n2 ∧ (n2 < 16)%nat) as (n2 & -> & Hn2)
    by (exists (Z.to_nat k2); lia).
  clear H1 H2. unfold newError. cbn [status code].
  do 16 (destruct n1 as [|n1];
         [do 16 (destruct n2 as [|n2];
                 [vm_compute; intros Heq;
                  first [split; reflexivity | discriminate Heq] |]);
          lia |]).
  lia.
Qed.

(** [Error()] of a [callError] is the status alone exactly when the
    message is empty, and the status, a space and the message
    otherwise. *)
Theorem callError_Error_describe (e : callError) :
  (message e = "" → callError_Error e = status e)
  ∧ (message e ≠ "" → callError_Error e = status e +:+ " " +:+ message e)
  ∧ (callError_Error e = status e ↔ message e = "").
Proof.
  unfold callError_Error. destruct (message e) as [|ch m] eqn:Hm; cbn [String.length].
  - repeat split; try done.
  - rewrite (proj2 (Z.ltb_lt 0 (Z.of_nat (S (String.length m))))) by lia.
    repeat split; try done.
    intros Heq. rewrite <- (append_empty_r (status e)) in Heq at 2.
    by apply (inj (String.app (status e))) in Heq.
Qed.

Section Write.
Context {O : Type}.

(** On a writer that has sent nothing, [write] answers with the code of
    the error, replaces whatever content types were set by
    [application/json] alone, leaves the other headers as they are and
    appends one envelope with the status and the message. *)
Theorem write_answer (e : callError) (rec : ResponseRecorder O) :
  wrote rec = None →
  Http.StatusCode (write e rec) = code e
  ∧ Values (ResultHeader (write e rec)) "Content-Type" = ["application/json"]
  ∧ (∀ key, key ≠ "Content-Type" →
       Values (ResultHeader (write e rec)) key = Values (HeaderMap rec) key)
  ∧ Http.Body (write e rec)
    = (Http.Body rec ++ [ErrorResponse (status e) (message e)])%list.
Proof.
  intros Hw. rewrite write_status, write_header, write_body by done.
  rewrite Values_Set_eq. repeat split; try done.
  intros key Hkey. by rewrite Values_Set_ne.
Qed.

End Write.

(** [TestCallError_write], with a content type set beforehand. *)
Lemma write_answer_witness :
  let rec := withHeader (Add "Content-Type" "text/html")
               (NewRecorder (O := option Test.testResponse)) in
  let e := newError Unauthenticated "test message with %s" ["param"] in
  wrote rec = None
  ∧ Http.StatusCode (write e rec) = 401%Z
  ∧ Values (ResultHeader (write e rec)) "Content-Type" = ["application/json"]
  ∧ Http.Body (write e rec)
    = [ErrorResponse "UNAUTHENTICATED" "test message with param"].
Proof.
  intros rec e. split; [reflexivity |].
  destruct (write_answer e rec eq_refl) as (Hs & Hct & _ & Hb).
  split; [exact Hs |]. split; [exact Hct | exact Hb].
Defined.

Lemma status_identifies_kind_witness :
  Aborted = Aborted
  ∧ code (newError Aborted "gone" []) = code (newError Aborted "%s" ["raced"]).
Proof.
  refine (status_identifies_kind Aborted Aborted "gone" "%s" [] ["raced"] _ _ eq_refl);
    unfold Aborted; lia.
Defined.

End TaxonomyFacts.

(** * More requests *)

Module DispatchExamples.
Import Strings Response Http Json Errors Callable Stages Test CallableFacts DispatchFacts.

#[local] Abbreviation answer opts r := (w (serve opts r)).
#[local] Abbreviation start := (NewState (O := option testResponse) {| Who := "" |}).
#[local] Abbreviation json_post b :=
  (NewRequest "POST" [("Content-Type", "application/json")] b).

(** Every typed error of the test handler comes from [Error]. *)
Lemma testHandler_made_by_Error : handler_made_by_Error (New testHandler []).
Proof.
  intros t ctx call result err H.
  change (Test.Handle t ctx call = (result, Some err)) in H.
  unfold Test.Handle in H.
  repeat case_bool_decide; try discriminate H; injection H as _ <-; [| exact I].
  by eexists _, _, _.
Qed.

Lemma method_not_allowed_witness :
  let r := NewRequest "GET" [] (Invalid "EOF") in
  Method r ≠ MethodOptions ∧ Method r ≠ MethodPost
  ∧ Http.StatusCode (answer [] r) = 405%Z
  ∧ target (serve [] r) = {| Who := "" |}.
Proof.
  intros r.
  assert (Ho : Method r ≠ MethodOptions) by discriminate.
  assert (Hp : Method r ≠ MethodPost) by discriminate.
  split; [exact Ho |]. split; [exact Hp |].
  destruct (method_not_allowed ParseMediaType (New testHandler []) r start Ho Hp eq_refl)
    as (Hs & _ & _ & Ht & _).
  split; [exact Hs | exact Ht].
Defined.

Lemma preflight_ignores_configuration_witness :
  let r := NewRequest "OPTIONS" [("Origin", "http://localhost")] (Invalid "EOF") in
  Method r = MethodOptions
  ∧ serve [authOption (Some rejectAll) true; loggerOption "stderr"] r = serve [] r.
Proof.
  intros r. split; [reflexivity |].
  exact (proj1 (preflight_ignores_configuration ParseMediaType
                  (New testHandler [authOption (Some rejectAll) true; loggerOption "stderr"])
                  (New testHandler []) r start eq_refl)).
Defined.

Lemma authorization_ignored_without_verifier_witness :
  let c := New testHandler [] in
  let r := NewRequest "POST" [("Content-Type", "application/json")] (dataWho "World") in
  let r' := NewRequest "POST"
              [("Content-Type", "application/json"); ("Authorization", "Basic dXNlcjpwdw==")]
              (dataWho "World") in
  authClient c = None
  ∧ Header r' = <["Authorization" := ["Basic dXNlcjpwdw=="]]> (Header r)
  ∧ ServeHTTP ParseMediaType c r' start = ServeHTTP ParseMediaType c r start.
Proof.
  intros c r r'. split; [reflexivity |]. split; [reflexivity |].
  exact (authorization_ignored_without_verifier ParseMediaType c r start
           ["Basic dXNlcjpwdw=="] eq_refl).
Defined.

Lemma authRequired_changes_message_only_witness :
  let c := New testHandler [authOption (Some acceptAll) true] in
  let c' := New testHandler [authOption (Some acceptAll) false] in
  let r := json_post (dataWho "World") in
  authClient c = Some acceptAll
  ∧ Fields (Get (Header r) "Authorization") = []
  ∧ validateToken c r = (None, Some (ErrorString "missing Authorization header"))
  ∧ validateToken c' r = (None, Some (ErrorString "unsupported Authorization header")).
Proof.
  intros c c' r. split; [reflexivity |]. split; [reflexivity |]. split; [reflexivity |].
  exact (proj2 (proj2 (proj2 (authRequired_changes_message_only c r false)))
           acceptAll eq_refl eq_refl).
Defined.

(** Fields may be separated by any run of white space. *)
Lemma validateToken_bearer_witness :
  let c := New testHandler [authOption (Some acceptAll) false] in
  let r := NewRequest "POST" [("Authorization", "  Bearer   abc ")] (dataWho "World") in
  authClient c = Some acceptAll
  ∧ Fields (Get (Header r) "Authorization") = ["Bearer"; "abc"]
  ∧ validateToken c r = (Some {| TokenUID := "uid-abc" |}, None).
Proof.
  intros c r. split; [reflexivity |]. split; [reflexivity |].
  exact (validateToken_bearer c r acceptAll "abc" eq_refl eq_refl).
Defined.

(** [TestCallable_BadContent_TextPlain] *)
Lemma post_failure_answer_witness :
  let r := NewRequest "POST" [("Content-Type", "text/plain")] (Invalid "invalid character") in
  Method r = MethodPost
  ∧ wrote (w start) = None
  ∧ handlePost ParseMediaType (New testHandler []) r start
    = (start, Some (Error InvalidArgument "unsupported content type" []))
  ∧ Http.StatusCode (answer [] r) = 400%Z
  ∧ Http.Body (answer [] r) = [ErrorResponse "INVALID_ARGUMENT" "unsupported content type"]
  ∧ Values (ResultHeader (answer [] r)) "Content-Type" = ["application/json"].
Proof.
  intros r. split; [reflexivity |]. split; [reflexivity |]. split; [reflexivity |].
  exact (post_failure_answer ParseMediaType (New testHandler []) r start start
           (Error InvalidArgument "unsupported content type" []) eq_refl eq_refl eq_refl).
Defined.

(** [TestCallable_Error] *)
Lemma post_failure_status_range_witness :
  let r := json_post (Value (Object [("data", Object [])])) in
  Method r = MethodPost
  ∧ wrote (w start) = None
  ∧ snd (handlePost ParseMediaType (New testHandler []) r start)
    = Some (Error NotFound "nobody to greet" [])
  ∧ (400 ≤ Http.StatusCode (answer [] r) ≤ 504)%Z.
Proof.
  intros r. split; [reflexivity |]. split; [reflexivity |]. split; [reflexivity |].
  exact (post_failure_status_range ParseMediaType (New testHandler []) r start _ _
           eq_refl eq_refl testHandler_made_by_Error eq_refl).
Defined.

(** [TestCallable_IID] *)
Lemma post_success_witness :
  let r := NewRequest "POST"
             [("Content-Type", "application/json"); ("Firebase-Instance-ID-Token", "42")]
             (dataWho "World") in
  Method r = MethodPost
  ∧ validateToken (New testHandler []) r = (None, None)
  ∧ negotiated ParseMediaType r = true
  ∧ Http.StatusCode (answer [] r) = 200%Z
  ∧ Http.Body (answer [] r) = [DataResponse (Some {| Greeting := "IID: 42" |})]
  ∧ Values (ResultHeader (answer [] r)) "Content-Type"
    = ["application/json; charset=utf-8"]
  ∧ log (serve [] r) = [].
Proof.
  intros r. split; [reflexivity |]. split; [reflexivity |]. split; [reflexivity |].
  exact (post_success ParseMediaType (New testHandler []) r start None
           (Some {| Greeting := "IID: 42" |})
           eq_refl eq_refl eq_refl eq_refl eq_refl eq_refl eq_refl).
Defined.

Lemma post_marshal_failure_witness :
  let c := New chanHandler [loggerOption "stderr"] in
  let r := json_post (Value (Object [("data", Object [])])) in
  let st' := ServeHTTP ParseMediaType c r (NewState tt) in
  Method r = MethodPost
  ∧ Marshal (request c) tt = Some (ErrorString "json: unsupported type: chan int")
  ∧ Http.StatusCode (w st') = 200%Z
  ∧ Http.Body (w st') = []
  ∧ log st' = [{| sink := Some "stderr";
                  logged := ErrorString "json: unsupported type: chan int";
                  msg := "failed to write response" |}].
Proof.
  intros c r st'. split; [reflexivity |]. split; [reflexivity |].
  destruct (post_marshal_failure ParseMediaType c r (NewState tt) None tt
              (ErrorString "json: unsupported type: chan int")
              eq_refl eq_refl eq_refl eq_refl eq_refl eq_refl eq_refl)
    as (_ & Hs & Hb & Hl).
  split; [exact Hs |]. split; [exact Hb | exact Hl].
Defined.

(** A typed error is logged like any other. *)
Lemma handler_error_logged_witness :
  let opts := [loggerOption "stderr"] in
  let r := json_post (Value (Object [("data", Object [])])) in
  Method r = MethodPost
  ∧ Callable.Handle (request (New testHandler opts)) {| Who := "" |} (Ctx r)
      (CallContext None r)
    = (None, Some (Error NotFound "nobody to greet" []))
  ∧ log (serve opts r)
    = [{| sink := Some "stderr";
          logged := Error NotFound "nobody to greet" [];
          msg := "callable returned error" |}].
Proof.
  intros opts r. split; [reflexivity |]. split; [reflexivity |].
  exact (handler_error_logged ParseMediaType (New testHandler opts) r start None None
           (Error NotFound "nobody to greet" []) eq_refl eq_refl eq_refl eq_refl eq_refl).
Defined.

Lemma protocol_failure_not_logged_witness :
  let opts := [loggerOption "stderr"] in
  let r := json_post (Value (Str "text")) in
  Method r = MethodPost
  ∧ snd (Decode (Callable.UnmarshalJSON (request (New testHandler opts))) (Body r)
           {| Who := "" |}) ≠ None
  ∧ log (serve opts r) = [].
Proof.
  intros opts r.
  assert (Hd : snd (Decode (Callable.UnmarshalJSON (request (New testHandler opts)))
                      (Body r) (target start)) ≠ None) by discriminate.
  split; [reflexivity |]. split; [exact Hd |].
  exact (protocol_failure_not_logged ParseMediaType (New testHandler opts) r start
           eq_refl (or_intror (or_intror Hd))).
Defined.

(** The body [{"data":{"who":"x","who":5}}]: the first member is stored
    before the second fails. *)
Lemma request_object_after_failure_witness :
  let r := json_post (Value (Object [("data",
             Object [("who", Str "x"); ("who", Number "5")])])) in
  Method r = MethodPost
  ∧ verified (New testHandler []) r = true
  ∧ negotiated ParseMediaType r = true
  ∧ Http.StatusCode (answer [] r) = 400%Z
  ∧ target (serve [] r) = {| Who := "x" |}
  ∧ log (serve [] r) = [].
Proof.
  intros r.
  assert (Hd : snd (Decode (Callable.UnmarshalJSON (request (New testHandler [])))
                      (Body r) (target start)) ≠ None) by discriminate.
  destruct (proj2 (request_object_after_failure ParseMediaType (New testHandler []) r start
                     eq_refl) eq_refl eq_refl Hd) as [Ht Hl].
  split; [reflexivity |]. split; [reflexivity |]. split; [reflexivity |].
  split; [reflexivity |]. split; [exact Ht | exact Hl].
Defined.

Lemma New_last_auth_option_wins_witness :
  let c := New testHandler
             [authOption (Some rejectAll) true; loggerOption "stdout";
              authOption (Some acceptAll) false; loggerOption "stderr"] in
  Forall (λ o, ∃ l, o = loggerOption l) [loggerOption "stderr"]
  ∧ authClient c = Some acceptAll
  ∧ authRequired c = false.
Proof.
  intros c.
  assert (Hafter : Forall (λ o, ∃ l, o = loggerOption l) [loggerOption "stderr"])
    by (repeat constructor; by eexists).
  split; [exact Hafter |].
  destruct (New_last_auth_option_wins testHandler) as (_ & _ & _ & Hauth & _).
  exact (Hauth [authOption (Some rejectAll) true; loggerOption "stdout"]
           [loggerOption "stderr"] (Some acceptAll) false Hafter).
Defined.

End DispatchExamples.
